(** * Chat relay server: registry, routing and wire codec

    A shallow embedding of [chat_server.py] (class [ChatServer]) and the
    properties of its connection registry, its broadcast / whisper routing
    and its JSON wire codec.

    Conventions of the embedding:
    - a Python [str] is a Rocq [string], one character per code point; the
      character tables below cover the code points 0..255. What [recv]
      returned is given by the text it decodes to;
    - [self.clients] is an insertion-ordered dictionary, modelled as an
      association list with distinct keys;
    - a socket is identified by a natural number; [send] either appends the
      bytes to the wire or raises, and it raises on the sockets listed in
      [down];
    - [datetime.now()] is an oracle: the server state counts the readings
      that [encode_message] and the [/time] command make, and [clock] says
      what each of them returns. The lines printed on the console, which
      read the clock too, are left out;
    - code that threads the server state and may raise lives in the monad
      [M]. A thread running [handle_client] is a machine whose steps are
      the stretches of code between two waits in [recv] or two
      [with self.client_lock] blocks: no step enters the lock twice, so
      the steps of several threads interleave as the blocks do;
    - the admin console is left out; [running] is a field of the state
      that the loop tests, and [shutdown] is a function on the state, not
      an action of the schedules;
    - of [chat_client.py], the decoding and display of one received event
      and the dispatch of one typed line are modelled; [json.loads] is
      modelled on JSON objects with string values. *)

From Stdlib Require Import List String Ascii Bool PeanoNat Lia.
Import ListNotations.
Local Open Scope list_scope.
Local Open Scope string_scope.

(** ** Python [str] operations *)

Module PyStr.

Definition ord (a : ascii) : nat := nat_of_ascii a.

Definition between (lo hi n : nat) : bool := Nat.leb lo n && Nat.leb n hi.

(** [str.isspace] on one character: TAB..CR, FS..US, space, NEL, NBSP. *)
Definition isspace (a : ascii) : bool :=
  let n := ord a in
  between 9 13 n || between 28 32 n || Nat.eqb n 133 || Nat.eqb n 160.

(** [str.lower] on one character: A..Z and the Latin-1 capitals. *)
Definition lower_char (a : ascii) : ascii :=
  let n := ord a in
  if between 65 90 n || between 192 214 n || between 216 222 n
  then ascii_of_nat (n + 32) else a.

Fixpoint lower (s : string) : string :=
  match s with
  | EmptyString => EmptyString
  | String a r => String (lower_char a) (lower r)
  end.

Definition is_empty (s : string) : bool :=
  match s with EmptyString => true | String _ _ => false end.

Fixpoint lstrip (s : string) : string :=
  match s with
  | EmptyString => EmptyString
  | String a r => if isspace a then lstrip r else s
  end.

Fixpoint rstrip (s : string) : string :=
  match s with
  | EmptyString => EmptyString
  | String a r =>
      let r' := rstrip r in
      if isspace a && is_empty r' then EmptyString else String a r'
  end.

(** [s.strip()] *)
Definition strip (s : string) : string := rstrip (lstrip s).

(** [s.startswith(p)] *)
Definition startswith (p s : string) : bool := String.prefix p s.

(** [s.split()]: maximal runs of non-whitespace characters. *)
Fixpoint split_from (word s : string) : list string :=
  match s with
  | EmptyString => if is_empty word then [] else [word]
  | String a r =>
      if isspace a
      then (if is_empty word then split_from EmptyString r else word :: split_from EmptyString r)
      else split_from (word ++ String a EmptyString) r
  end.

Definition split (s : string) : list string := split_from EmptyString s.

(** [sep.join(l)] *)
Fixpoint join (sep : string) (l : list string) : string :=
  match l with
  | [] => EmptyString
  | [x] => x
  | x :: r => x ++ sep ++ join sep r
  end.

Definition hex_digit (n : nat) : ascii :=
  ascii_of_nat (if Nat.ltb n 10 then 48 + n else 87 + n).

Definition hex2 (n : nat) : string :=
  String (hex_digit (n / 16)) (String (hex_digit (n mod 16)) EmptyString).

Fixpoint contains_char (c : ascii) (s : string) : bool :=
  match s with
  | EmptyString => false
  | String a r => Ascii.eqb a c || contains_char c r
  end.

(** [str.isprintable] on one character. *)
Definition isprintable (a : ascii) : bool :=
  let n := ord a in
  between 32 126 n || between 161 172 n || between 174 255 n.

Definition backslash : ascii := ascii_of_nat 92.
Definition squote : ascii := ascii_of_nat 39.
Definition dquote : ascii := ascii_of_nat 34.

Definition repr_char (quote a : ascii) : string :=
  let n := ord a in
  if Ascii.eqb a quote || Ascii.eqb a backslash then String backslash (String a EmptyString)
  else if Nat.eqb n 9 then String backslash "t"
  else if Nat.eqb n 10 then String backslash "n"
  else if Nat.eqb n 13 then String backslash "r"
  else if isprintable a then String a EmptyString
  else String backslash (String "x" (hex2 n)).

Fixpoint repr_body (quote : ascii) (s : string) : string :=
  match s with
  | EmptyString => EmptyString
  | String a r => repr_char quote a ++ repr_body quote r
  end.

(** [repr(s)]: single quotes, unless [s] has a single quote and no double
    quote. *)
Definition repr (s : string) : string :=
  let quote :=
    if contains_char squote s && negb (contains_char dquote s)
    then dquote else squote in
  String quote (repr_body quote s ++ String quote EmptyString).

(** [str(l)] for a list of strings, as an f-string renders it. *)
Definition str_of_list (l : list string) : string :=
  "[" ++ join ", " (map repr l) ++ "]".

(** Truth value of a string: non-empty. *)
Definition truthy (s : string) : bool := negb (is_empty s).

End PyStr.

(** ** Wire codec: [json.dumps] of a flat record of strings *)

Module Json.
Import PyStr.

(** One character of a JSON string under [ensure_ascii=True]. *)
Definition escape_char (a : ascii) : string :=
  let n := ord a in
  if Nat.eqb n 34 then String backslash (String dquote EmptyString)
  else if Nat.eqb n 92 then String backslash (String backslash EmptyString)
  else if Nat.eqb n 8 then String backslash "b"
  else if Nat.eqb n 12 then String backslash "f"
  else if Nat.eqb n 10 then String backslash "n"
  else if Nat.eqb n 13 then String backslash "r"
  else if Nat.eqb n 9 then String backslash "t"
  else if between 32 126 n then String a EmptyString
  else String backslash ("u00" ++ hex2 n).

Fixpoint escape (s : string) : string :=
  match s with
  | EmptyString => EmptyString
  | String a r => escape_char a ++ escape r
  end.

Definition quoted (s : string) : string :=
  String dquote (escape s ++ String dquote EmptyString).

Definition member (kv : string * string) : string :=
  quoted (fst kv) ++ ": " ++ quoted (snd kv).

(** [json.dumps(d)] for a dict [d] of string keys and string values, with
    the default separators; the members keep the dict's insertion order. *)
Definition dumps (d : list (string * string)) : string :=
  "{" ++ join ", " (map member d) ++ "}".

End Json.

(** ** The clock *)

Record datetime : Type := mkDatetime {
  year : nat; month : nat; day : nat;
  hour : nat; minute : nat; second : nat
}.

Module Clock.

Definition digit (n : nat) : ascii := ascii_of_nat (48 + n mod 10).

Definition two_digits (n : nat) : string :=
  String (digit (n / 10)) (String (digit n) EmptyString).

Definition four_digits (n : nat) : string :=
  String (digit (n / 1000)) (String (digit (n / 100)) (two_digits n)).

(** [strftime("%H:%M:%S")] *)
Definition hms (d : datetime) : string :=
  two_digits (hour d) ++ ":" ++ two_digits (minute d) ++ ":" ++ two_digits (second d).

(** [strftime("%Y-%m-%d %H:%M:%S")], for a four-digit year. *)
Definition ymd_hms (d : datetime) : string :=
  four_digits (year d) ++ "-" ++ two_digits (month d) ++ "-" ++ two_digits (day d)
  ++ " " ++ hms d.

End Clock.

(** ** The registry: [self.clients] *)

(** A socket object, by identity. *)
Abbreviation socket := nat (only parsing).

(** [addr], as [accept] returns it: host and port. *)
Abbreviation address := (string * nat)%type (only parsing).

(** The value stored per connection: [{'username': name, 'address': addr}]. *)
Record client_info : Type := mkInfo {
  username : string;
  client_address : address
}.

Module Dict.

Definition t : Type := list (socket * client_info).

Definition keys (d : t) : list socket := map fst d.
Definition values (d : t) : list client_info := map snd d.

(** [[client['username'] for client in d.values()]] *)
Definition usernames (d : t) : list string := map username (values d).

(** [k in d] *)
Definition contains (k : socket) (d : t) : bool := existsb (Nat.eqb k) (keys d).

(** [d.get(k)] *)
Fixpoint get (k : socket) (d : t) : option client_info :=
  match d with
  | [] => None
  | (k', v) :: r => if Nat.eqb k k' then Some v else get k r
  end.

(** [d[k] = v]: a present key keeps its position, a new key goes last. *)
Fixpoint set (k : socket) (v : client_info) (d : t) : t :=
  match d with
  | [] => [(k, v)]
  | (k', v') :: r => if Nat.eqb k k' then (k, v) :: r else (k', v') :: set k v r
  end.

(** [del d[k]]: [None] stands for the [KeyError] of an absent key. *)
Fixpoint del (k : socket) (d : t) : option t :=
  match d with
  | [] => None
  | (k', v') :: r =>
      if Nat.eqb k k' then Some r
      else match del k r with
           | Some r' => Some ((k', v') :: r')
           | None => None
           end
  end.

(** [info['username']], for places where [username] is a variable. *)
Definition name_of (info : client_info) : string := username info.

(** The dict without the key [k]. *)
Definition without (k : socket) (d : t) : t :=
  filter (fun kv => negb (Nat.eqb k (fst kv))) d.

End Dict.

(** ** Server state and the monad of handler code *)

Record server : Type := mkServer {
  clients : Dict.t;               (* self.clients *)
  running : bool;                 (* self.running *)
  down : list socket;               (* sockets on which send raises: reset by
                                     the peer, or closed by the server *)
  wire : list (socket * string);    (* bytes written so far, oldest first *)
  clock : nat -> datetime;        (* what the n-th reading of the clock gives *)
  reads : nat                     (* readings of the clock so far *)
}.

Definition set_clients (d : Dict.t) (st : server) : server :=
  mkServer d (running st) (down st) (wire st) (clock st) (reads st).

Definition set_down (l : list socket) (st : server) : server :=
  mkServer (clients st) (running st) l (wire st) (clock st) (reads st).

Definition set_wire (w : list (socket * string)) (st : server) : server :=
  mkServer (clients st) (running st) (down st) w (clock st) (reads st).

Definition set_reads (n : nat) (st : server) : server :=
  mkServer (clients st) (running st) (down st) (wire st) (clock st) n.

(** Result of running handler code: a value, or a raised exception. Every
    handler of the source catches [Exception] (or everything), so one
    constructor stands for all exceptions. *)
Inductive outcome (A : Type) : Type :=
| Return (a : A)
| Raise.
Arguments Return {A} a.
Arguments Raise {A}.

Definition M (A : Type) : Type := server -> outcome A * server.

Definition ret {A} (a : A) : M A := fun st => (Return a, st).

Definition bind {A B} (m : M A) (k : A -> M B) : M B :=
  fun st =>
    match m st with
    | (Return a, st') => k a st'
    | (Raise, st') => (Raise, st')
    end.

(** [try: m except: handler] *)
Definition try_except {A} (m handler : M A) : M A :=
  fun st =>
    match m st with
    | (Return a, st') => (Return a, st')
    | (Raise, st') => handler st'
    end.

Notation "x <- m ;; k" := (bind m (fun x => k))
  (at level 61, m at next level, right associativity).
Notation "m ;;; k" := (bind m (fun _ => k))
  (at level 61, right associativity).

(** [for x in l: body(x)] *)
Fixpoint for_each {A} (l : list A) (body : A -> M unit) : M unit :=
  match l with
  | [] => ret tt
  | x :: r => body x ;;; for_each r body
  end.

Definition mem (c : socket) (l : list socket) : bool := existsb (Nat.eqb c) l.

(** [c.send(data)] *)
Definition send (c : socket) (data : string) : M unit :=
  fun st =>
    if mem c (down st) then (Raise, st)
    else (Return tt, set_wire (wire st ++ [(c, data)])%list st).

(** [c.close()]; a later [send] on [c] raises. *)
Definition close (c : socket) : M unit :=
  fun st =>
    (Return tt, if mem c (down st) then st else set_down (c :: down st) st).

(** ** [ChatServer] methods *)

(** [get_timestamp] *)
Definition get_timestamp : M string :=
  fun st => (Return (Clock.hms (clock st (reads st))), set_reads (S (reads st)) st).

(** The dict [message_data] that [encode_message] builds. *)
Definition message_data (timestamp sender message msg_type : string)
  : list (string * string) :=
  [("timestamp", timestamp); ("sender", sender);
   ("message", message); ("type", msg_type)].

(** [encode_message]; the UTF-8 encoding of the all-ASCII output of
    [json.dumps] is that output. *)
Definition encode_message (sender message msg_type : string) : M string :=
  timestamp <- get_timestamp ;;
  ret (Json.dumps (message_data timestamp sender message msg_type)).

(** [get_online_users] *)
Definition get_online_users : M (list string) :=
  fun st => (Return (Dict.usernames (clients st)), st).

(** The [except] branch of [broadcast]: remove the failed client. *)
Definition drop_failed (client_conn : socket) : M unit :=
  fun st =>
    if Dict.contains client_conn (clients st)
    then match Dict.del client_conn (clients st) with
         | Some d => (Return tt, set_clients d st)
         | None => (Raise, st)
         end
    else (Return tt, st).

Definition is_excluded (client_conn : socket) (exclude : option socket) : bool :=
  match exclude with
  | Some e => Nat.eqb client_conn e
  | None => false
  end.

(** The body of the loop of [broadcast], for one key of the snapshot. *)
Definition broadcast_to (message sender : string) (exclude : option socket)
    (msg_type : string) (client_conn : socket) : M unit :=
  if negb (is_excluded client_conn exclude)
  then try_except
         (data <- encode_message sender message msg_type ;;
          send client_conn data)
         (drop_failed client_conn)
  else ret tt.

(** [broadcast(message, sender, exclude, msg_type)], the whole of it under
    [self.client_lock]; the loop runs over [list(self.clients.keys())], a
    snapshot taken before the first removal. *)
Definition broadcast (message sender : string) (exclude : option socket)
    (msg_type : string) : M unit :=
  fun st =>
    for_each (Dict.keys (clients st))
      (broadcast_to message sender exclude msg_type) st.

Definition newline : string := String (ascii_of_nat 10) EmptyString.

(** The literal [help_text] of [handle_command], with its indentation. *)
Definition help_text : string :=
  let indent := "            " in
  newline ++ indent ++ "Available Commands:"
  ++ newline ++ indent ++ "/help - Show this help message"
  ++ newline ++ indent ++ "/users - List online users"
  ++ newline ++ indent ++ "/whisper <username> <message> - Send private message"
  ++ newline ++ indent ++ "/quit - Disconnect from server"
  ++ newline ++ indent ++ "/time - Show server time"
  ++ newline ++ indent.

(** The search loop of the whisper branch: the first connection, in the
    dict's order, whose username is [target_user]. *)
Fixpoint find_target (target_user : string) (d : Dict.t) : option socket :=
  match d with
  | [] => None
  | (client_conn, client_info) :: r =>
      if String.eqb (username client_info) target_user then Some client_conn
      else find_target target_user r
  end.

(** [datetime.now().strftime("%Y-%m-%d %H:%M:%S")] *)
Definition current_time : M string :=
  fun st => (Return (Clock.ymd_hms (clock st (reads st))), set_reads (S (reads st)) st).

Definition lookup_target (target_user : string) : M (option socket) :=
  fun st => (Return (find_target target_user (clients st)), st).

Definition raise {A} : M A := fun st => (Raise, st).

(** [conn.send(self.encode_message(sender, message, msg_type))] *)
Definition send_event (conn : socket) (sender message msg_type : string) : M unit :=
  data <- encode_message sender message msg_type ;;
  send conn data.

(** [handle_command(conn, username, command)] *)
Definition handle_command (conn : socket) (username command : string) : M unit :=
  let parts := PyStr.split command in
  match parts with
  | [] => raise                                     (* parts[0]: IndexError *)
  | part0 :: _ =>
      let cmd := PyStr.lower part0 in
      if String.eqb cmd "/help" then
        send_event conn "Server" help_text "system"
      else if String.eqb cmd "/users" then
        online_users <- get_online_users ;;
        send_event conn "Server"
          ("Online users: " ++ PyStr.str_of_list online_users) "system"
      else if String.eqb cmd "/whisper" && Nat.leb 3 (List.length parts) then
        let target_user := nth 1 parts EmptyString in
        let whisper_msg := PyStr.join " " (skipn 2 parts) in
        target_conn <- lookup_target target_user ;;
        match target_conn with
        | Some target =>
            if negb (Nat.eqb target conn) then
              send_event target ("[Whisper from " ++ username ++ "]")
                whisper_msg "whisper" ;;;
              send_event conn "Server" ("Whisper sent to " ++ target_user) "system"
            else
              send_event conn "Server"
                ("User '" ++ target_user ++ "' not found or is yourself") "error"
        | None =>
            send_event conn "Server"
              ("User '" ++ target_user ++ "' not found or is yourself") "error"
        end
      else if String.eqb cmd "/time" then
        now <- current_time ;;
        send_event conn "Server" ("Server time: " ++ now) "system"
      else if String.eqb cmd "/quit" then
        send_event conn "Server" "Goodbye!" "system"
      else
        send_event conn "Server"
          "Unknown command. Type /help for available commands." "error"
  end.

(** ** [handle_client] as a machine

    One thread runs [handle_client(conn, addr)]. Its control points are the
    places where it waits for [recv] and the boundaries between two
    [with self.client_lock] blocks, where another thread may run. *)

Inductive pc : Type :=
| Accepted                     (* thread started, before the greeting *)
| Handshaking                  (* waiting for the username in [recv] *)
| Checked (username : string)  (* passed the test; lock released *)
| Inserted (username : string) (* in the dict; before the join broadcast *)
| Joined (username : string)   (* before the welcome to the new client *)
| LoopTop (username : string)  (* at [while self.running] *)
| Receiving (username : string)(* waiting in the loop's [recv] *)
| Finally (username : string)  (* in [finally], username assigned *)
| Departing (username : string)(* before the departure broadcast *)
| Closed.

(** What a [recv] followed by [decode('utf-8')] gives: the text (empty when
    the peer has closed), or an exception of either call. *)
Inductive received : Type :=
| Text (s : string)
| Undecodable
| RecvError.

(** The test of the candidate username, lines 77 to 82, under the lock. *)
Definition username_taken (username : string) (st : server) : bool :=
  let taken_usernames := Dict.usernames (clients st) in
  existsb (String.eqb username) taken_usernames
  || String.eqb (PyStr.lower username) "server".

Definition greeting : string := "Welcome to the chat server! Enter your username:".

Definition welcome_text (username : string) (online : list string) : string :=
  "Welcome " ++ username ++ "! Type '/help' for commands. Currently online: "
  ++ PyStr.str_of_list online.

(** The guarded removal of [finally], lines 124 to 126. *)
Definition remove_client (conn : socket) : M unit :=
  fun st =>
    if Dict.contains conn (clients st)
    then match Dict.del conn (clients st) with
         | Some d => (Return tt, set_clients d st)
         | None => (Raise, st)
         end
    else (Return tt, st).

(** [self.clients[conn] = {'username': username, 'address': addr}] *)
Definition add_client (conn : socket) (username : string) (addr : address) : M unit :=
  fun st => (Return tt, set_clients (Dict.set conn (mkInfo username addr) (clients st)) st).

(** State after running [m], whatever its outcome. *)
Definition exec {A} (m : M A) (st : server) : server := snd (m st).

(** A step that needs no input: the thread runs from its control point to
    the next one. At [Handshaking] and [Receiving] it is blocked. *)
Definition handle_client_run (conn : socket) (addr : address) (p : pc)
    (st : server) : pc * server :=
  match p with
  | Accepted =>
      match send_event conn "Server" greeting "system" st with
      | (Return _, st') => (Handshaking, st')
      | (Raise, st') => (Closed, exec (close conn) st')
      end
  | Checked username =>
      (Inserted username, exec (add_client conn username addr) st)
  | Inserted username =>
      (Joined username,
       exec (broadcast (username ++ " has joined the chat!") "system"
               (Some conn) "message") st)
  | Joined username =>
      match (online <- get_online_users ;;
             send_event conn "Server" (welcome_text username online) "welcome") st with
      | (Return _, st') => (LoopTop username, st')
      | (Raise, st') => (Finally username, st')
      end
  | LoopTop username =>
      if running st then (Receiving username, st) else (Finally username, st)
  | Finally username =>
      if PyStr.truthy username
      then (Departing username, exec (remove_client conn) st)
      else (Closed, exec (close conn) st)
  | Departing username =>
      (Closed,
       exec (broadcast (username ++ " has left the chat.") "system" None "message" ;;;
             close conn) st)
  | Handshaking | Receiving _ | Closed => (p, st)
  end.

(** A step that consumes what [recv] returned. *)
Definition handle_client_recv (conn : socket) (addr : address) (p : pc)
    (r : received) (st : server) : pc * server :=
  match p with
  | Handshaking =>
      match r with
      | Text username_data =>
          if PyStr.is_empty username_data
          then (Closed, exec (close conn ;;; close conn) st)
          else
            let username := PyStr.strip username_data in
            if username_taken username st
            then (Finally username,
                  exec (send_event conn "Server"
                          "Username already taken. Disconnecting..." "error" ;;;
                        close conn) st)
            else (Checked username, st)
      | Undecodable | RecvError => (Closed, exec (close conn) st)
      end
  | Receiving username =>
      match r with
      | Text message_data =>
          if PyStr.is_empty message_data then (Finally username, st)
          else
            let message := PyStr.strip message_data in
            if PyStr.startswith "/" message
            then match handle_command conn username message st with
                 | (Return _, st') => (LoopTop username, st')
                 | (Raise, st') => (Finally username, st')
                 end
            else (LoopTop username,
                  exec (broadcast message username None "message") st)
      | Undecodable | RecvError => (Finally username, st)
      end
  | _ => (p, st)
  end.

(** ** Several connections: threads and schedules *)

Record thread : Type := mkThread {
  t_conn : socket;
  t_addr : address;
  t_pc : pc
}.

Record system : Type := mkSystem {
  shared : server;
  threads : list thread
}.

(** What the scheduler and the network can do next. *)
Inductive action : Type :=
| Accept (conn : socket) (addr : address)   (* [accept] returns; thread started *)
| Run (conn : socket)                       (* the thread of [conn] moves on *)
| Recv (conn : socket) (r : received)       (* its [recv] returns [r] *)
| Break (conn : socket).                    (* the peer of [conn] is gone:
                                               a later [send] on it raises *)

Fixpoint update_thread (conn : socket) (f : thread -> server -> pc * server)
    (ts : list thread) (st : server) : list thread * server :=
  match ts with
  | [] => ([], st)
  | t :: r =>
      if Nat.eqb (t_conn t) conn
      then let '(p, st') := f t st in
           (mkThread (t_conn t) (t_addr t) p :: r, st')
      else let '(r', st') := update_thread conn f r st in
           (t :: r', st')
  end.

Definition step (a : action) (sys : system) : system :=
  match a with
  | Accept conn addr =>
      mkSystem (shared sys) (threads sys ++ [mkThread conn addr Accepted])%list
  | Run conn =>
      let '(ts, st) :=
        update_thread conn
          (fun t => handle_client_run conn (t_addr t) (t_pc t))
          (threads sys) (shared sys) in
      mkSystem st ts
  | Recv conn r =>
      let '(ts, st) :=
        update_thread conn
          (fun t => handle_client_recv conn (t_addr t) (t_pc t) r)
          (threads sys) (shared sys) in
      mkSystem st ts
  | Break conn =>
      mkSystem (exec (close conn) (shared sys)) (threads sys)
  end.

(** The system after a schedule, a list of actions in the order they occur. *)
Definition run_schedule (schedule : list action) (sys : system) : system :=
  fold_left (fun s a => step a s) schedule sys.

(** A server just started: no client, the flag set, nothing written. *)
Definition initial (clk : nat -> datetime) : system :=
  mkSystem (mkServer [] true [] [] clk 0) [].

(** What has been written to [c] so far, oldest first. *)
Definition inbox (c : socket) (st : server) : list string :=
  map snd (filter (fun e => Nat.eqb (fst e) c) (wire st)).

(** The bytes of one chat event: what [encode_message] returns when the
    clock reads [now]. *)
Definition event (now : datetime) (sender message msg_type : string) : string :=
  Json.dumps (message_data (Clock.hms now) sender message msg_type).

(** No two live sessions share a username. *)
Definition unique_usernames (st : server) : Prop :=
  NoDup (Dict.usernames (clients st)).

(** Every character of [s] is whitespace. *)
Fixpoint all_space (s : string) : bool :=
  match s with
  | EmptyString => true
  | String a r => PyStr.isspace a && all_space r
  end.

(** ** Notions used by the statements *)

(** No character of [s] is whitespace. *)
Fixpoint no_space (s : string) : bool :=
  match s with
  | EmptyString => true
  | String a r => negb (PyStr.isspace a) && no_space r
  end.

(** A word: not empty, and without whitespace. *)
Definition is_word (s : string) : bool := negb (PyStr.is_empty s) && no_space s.

(** Every character of [s] is a printable ASCII character, 32 to 126. *)
Fixpoint all_printable (s : string) : bool :=
  match s with
  | EmptyString => true
  | String a r => PyStr.between 32 126 (PyStr.ord a) && all_printable r
  end.

(** The keys of [self.clients] are distinct, as those of a dict are. *)
Definition keys_distinct (st : server) : Prop := NoDup (Dict.keys (clients st)).

(** The state after the loop body has handled one key. *)
Definition after_one (message sender : string) (exclude : option socket)
    (msg_type : string) (client_conn : socket) (st : server) : server :=
  if is_excluded client_conn exclude then st
  else if mem client_conn (down st)
  then set_clients (Dict.without client_conn (clients st))
         (set_reads (S (reads st)) st)
  else set_wire
         (wire st ++ [(client_conn, event (clock st (reads st)) sender message msg_type)])%list
         (set_reads (S (reads st)) st).

(** The keys of a snapshot [ks] whose write fails: not excluded, and down. *)
Definition fails (exclude : option socket) (dn ks : list socket) (k : socket) : bool :=
  mem k ks && negb (is_excluded k exclude) && mem k dn.

(** The keys of a snapshot [ks] that are written to with success. *)
Definition reached (exclude : option socket) (dn ks : list socket) (k : socket) : bool :=
  mem k ks && negb (is_excluded k exclude) && negb (mem k dn).

(** ** Concrete rooms used by the examples *)

Module Scenario.

(** A clock whose n-th reading is 09:05 and n seconds, on 2024-03-07. *)
Definition tick (n : nat) : datetime := mkDatetime 2024 3 7 9 5 n.

Definition addr1 : address := ("127.0.0.1", 4001).
Definition addr2 : address := ("127.0.0.1", 4002).
Definition addr3 : address := ("127.0.0.1", 4003).

(** One client joins: accepted, greeted, sends its name, is inserted,
    announced and welcomed, and waits in its loop. *)
Definition join (conn : socket) (addr : address) (name : string) : list action :=
  [Accept conn addr; Run conn; Recv conn (Text name);
   Run conn; Run conn; Run conn; Run conn].

(** alice, bob and carol have joined, in this order. *)
Definition room : system :=
  run_schedule (join 1 addr1 "alice" ++ join 2 addr2 "bob" ++ join 3 addr3 "carol")%list
    (initial tick).

Definition pc_of (conn : socket) (sys : system) : option pc :=
  option_map t_pc (find (fun t => Nat.eqb (t_conn t) conn) (threads sys)).

End Scenario.

(** The two replies of the whisper branch, as states. *)
Definition whisper_refused (conn : socket) (target_user : string)
    (st st' : server) : Prop :=
  clients st' = clients st
  /\ wire st'
     = (wire st
        ++ [(conn, event (clock st (reads st)) "Server"
                     ("User '" ++ target_user ++ "' not found or is yourself")
                     "error")])%list.

Definition whisper_delivered (conn target : socket)
    (username target_user whisper_msg : string) (st st' : server) : Prop :=
  clients st' = clients st
  /\ wire st'
     = (wire st
        ++ [(target, event (clock st (reads st))
                       ("[Whisper from " ++ username ++ "]") whisper_msg "whisper");
            (conn, event (clock st (S (reads st))) "Server"
                     ("Whisper sent to " ++ target_user) "system")])%list.

(** The [finally] block of a session with a non-empty username: the entry
    of [conn] is removed, then every remaining session that can be written
    to gets one departure event, and the socket is closed. *)
Definition tears_down (conn : socket) (addr : address) (username : string) : Prop :=
  forall st : server,
    keys_distinct st ->
    exists st1 st2,
      handle_client_run conn addr (Finally username) st = (Departing username, st1)
      /\ clients st1 = Dict.without conn (clients st)
      /\ wire st1 = wire st /\ down st1 = down st /\ clock st1 = clock st
      /\ handle_client_run conn addr (Departing username) st1 = (Closed, st2)
      /\ Dict.contains conn (clients st2) = false
      /\ mem conn (down st2) = true
      /\ forall d,
           if Dict.contains d (clients st1) && negb (mem d (down st1))
           then exists n,
               inbox d st2
               = (inbox d st1
                  ++ [event (clock st n) "system" (username ++ " has left the chat.")
                        "message"])%list
           else inbox d st2 = inbox d st1.

(** Both clients are accepted and greeted, both send the name bob; each
    thread runs its test before the other has inserted. *)
Definition race : list action :=
  [Accept 1 Scenario.addr1; Accept 2 Scenario.addr2; Run 1; Run 2;
   Recv 1 (Text "bob"); Recv 2 (Text "bob");
   Run 1; Run 2].

(** Handler code that leaves the registry alone. *)
Definition keeps_clients {A} (m : M A) : Prop :=
  forall st, clients (snd (m st)) = clients st.

(** ** [shutdown] *)

Definition set_running (b : bool) (st : server) : server :=
  mkServer (clients st) b (down st) (wire st) (clock st) (reads st).

Definition farewell : string := "Server is shutting down. Goodbye!".

(** [shutdown], as far as the clients are concerned: the flag, the last
    broadcast, the closing of every socket still in the dict, and
    [self.clients.clear()]. The listening socket and the line printed at
    the end are left out. *)
Definition shutdown : M unit :=
  (fun st => (Return tt, set_running false st)) ;;;
  broadcast farewell "Server" None "error" ;;;
  (fun st =>
     (for_each (Dict.keys (clients st))
        (fun conn => try_except (close conn) (ret tt)) ;;;
      (fun st' => (Return tt, set_clients [] st'))) st).

(** * The client: [chat_client.py] *)

(** ** [json.loads] on the text of one received event

    The decoder covers JSON objects whose values are strings, with code
    points below 256: on these it returns the dict, and [DecodeError] is
    returned exactly where [json.loads] raises [JSONDecodeError]. On any
    other JSON value it answers [Unsupported]. *)

Module JsonLoads.
Import PyStr.

(** A dict with string keys, as an association list with distinct keys. *)
Fixpoint dict_set (k v : string) (d : list (string * string))
  : list (string * string) :=
  match d with
  | [] => [(k, v)]
  | (k', v') :: r =>
      if String.eqb k k' then (k, v) :: r else (k', v') :: dict_set k v r
  end.

(** [d.get(k, default)] *)
Fixpoint dict_get (k default : string) (d : list (string * string)) : string :=
  match d with
  | [] => default
  | (k', v) :: r => if String.eqb k k' then v else dict_get k default r
  end.

(** The dict after the pairs of [d] have been stored in [acc], in order. *)
Definition collect (d acc : list (string * string)) : list (string * string) :=
  fold_left (fun a kv => dict_set (fst kv) (snd kv) a) d acc.

Inductive result : Type :=
| Decoded (d : list (string * string))
| DecodeError
| Unsupported.

(** JSON whitespace: space, TAB, LF, CR. *)
Definition is_ws (a : ascii) : bool :=
  let n := ord a in
  Nat.eqb n 32 || Nat.eqb n 9 || Nat.eqb n 10 || Nat.eqb n 13.

Fixpoint skip_ws (s : string) : string :=
  match s with
  | EmptyString => EmptyString
  | String a r => if is_ws a then skip_ws r else s
  end.

Definition hex_value (a : ascii) : option nat :=
  let n := ord a in
  if between 48 57 n then Some (n - 48)
  else if between 97 102 n then Some (n - 87)
  else if between 65 70 n then Some (n - 55)
  else None.

(** The character a one-letter escape stands for. *)
Definition unescape (a : ascii) : option ascii :=
  let n := ord a in
  if Nat.eqb n 34 || Nat.eqb n 92 || Nat.eqb n 47 then Some a
  else if Nat.eqb n 98 then Some (ascii_of_nat 8)
  else if Nat.eqb n 102 then Some (ascii_of_nat 12)
  else if Nat.eqb n 110 then Some (ascii_of_nat 10)
  else if Nat.eqb n 114 then Some (ascii_of_nat 13)
  else if Nat.eqb n 116 then Some (ascii_of_nat 9)
  else None.

Inductive scanned : Type :=
| Scan (text rest : string)
| ScanError
| ScanUnsupported.

Definition prepend (a : ascii) (r : scanned) : scanned :=
  match r with
  | Scan text rest => Scan (String a text) rest
  | ScanError => ScanError
  | ScanUnsupported => ScanUnsupported
  end.

(** The scan of a string literal, from after its opening quote, in strict
    mode: a raw control character is an error. *)
Fixpoint scan_string (s : string) : scanned :=
  match s with
  | EmptyString => ScanError
  | String a r =>
      if Ascii.eqb a dquote then Scan EmptyString r
      else if Ascii.eqb a backslash then
        match r with
        | EmptyString => ScanError
        | String e r1 =>
            if Nat.eqb (ord e) 117 then
              match r1 with
              | String h1 (String h2 (String h3 (String h4 r2))) =>
                  match hex_value h1, hex_value h2, hex_value h3, hex_value h4 with
                  | Some v1, Some v2, Some v3, Some v4 =>
                      if Nat.eqb v1 0 && Nat.eqb v2 0
                      then prepend (ascii_of_nat (16 * v3 + v4)) (scan_string r2)
                      else ScanUnsupported
                  | _, _, _, _ => ScanError
                  end
              | _ => ScanError
              end
            else
              match unescape e with
              | Some c => prepend c (scan_string r1)
              | None => ScanError
              end
        end
      else if Nat.ltb (ord a) 32 then ScanError
      else prepend a (scan_string r)
  end.

(** The first character of a JSON value that is not a string. *)
Definition starts_other_value (a : ascii) : bool :=
  let n := ord a in
  Nat.eqb n 123 || Nat.eqb n 91 || Nat.eqb n 45 || between 48 57 n
  || Nat.eqb n 116 || Nat.eqb n 102 || Nat.eqb n 110
  || Nat.eqb n 78 || Nat.eqb n 73.

(** After the value of the document: only whitespace may follow. *)
Definition finish (d : list (string * string)) (rest : string) : result :=
  match skip_ws rest with
  | EmptyString => Decoded d
  | String _ _ => DecodeError
  end.

(** The members of an object, from where a key is expected. [fuel] bounds
    the number of members; the length of the text is enough. *)
Fixpoint members (fuel : nat) (acc : list (string * string)) (s : string)
  : result :=
  match fuel with
  | O => Unsupported
  | S fuel' =>
      match s with
      | EmptyString => DecodeError
      | String q r =>
          if negb (Ascii.eqb q dquote) then DecodeError
          else
            match scan_string r with
            | ScanError => DecodeError
            | ScanUnsupported => Unsupported
            | Scan key r1 =>
                match skip_ws r1 with
                | EmptyString => DecodeError
                | String c r2 =>
                    if negb (Nat.eqb (ord c) 58) then DecodeError
                    else
                      match skip_ws r2 with
                      | EmptyString => DecodeError
                      | String v r3 =>
                          if Ascii.eqb v dquote then
                            match scan_string r3 with
                            | ScanError => DecodeError
                            | ScanUnsupported => Unsupported
                            | Scan value r4 =>
                                let acc' := dict_set key value acc in
                                match skip_ws r4 with
                                | EmptyString => DecodeError
                                | String d r5 =>
                                    if Nat.eqb (ord d) 44
                                    then members fuel' acc' (skip_ws r5)
                                    else if Nat.eqb (ord d) 125
                                    then finish acc' r5
                                    else DecodeError
                                end
                            end
                          else if starts_other_value v then Unsupported
                          else DecodeError
                      end
                end
            end
      end
  end.

(** [json.loads(s)] *)
Definition loads (s : string) : result :=
  match skip_ws s with
  | EmptyString => DecodeError
  | String a r =>
      if Nat.eqb (ord a) 123 then
        match skip_ws r with
        | EmptyString => DecodeError
        | String b r' =>
            if Nat.eqb (ord b) 125 then finish [] r'
            else members (String.length s) [] (String b r')
        end
      else if Ascii.eqb a dquote || starts_other_value a then Unsupported
      else DecodeError
  end.

(** What a scan has found stays found when text is added at the end. *)
Definition scan_extends (s t : string) : Prop :=
  match scan_string s with
  | Scan x r =>
      scan_string (s ++ t) = Scan x (r ++ t) /\ String.length r < String.length s
  | ScanUnsupported => scan_string (s ++ t) = ScanUnsupported
  | ScanError => True
  end.

(** What [members] has decided stays decided when text is added at the
    end, with at least as much fuel. *)
Definition members_extend (f : nat) (acc : list (string * string))
    (s t : string) : Prop :=
  match members f acc s with
  | Decoded d => forall f', f <= f' -> members f' acc (s ++ t) = finish d t
  | Unsupported => forall f', f <= f' -> members f' acc (s ++ t) = Unsupported
  | DecodeError => True
  end.

End JsonLoads.

(** ** [ChatClient] *)

Module Client.

Definition esc : string := String (ascii_of_nat 27) EmptyString.

(** [colors.get(msg_type, '\033[0m')] *)
Definition color (msg_type : string) : string :=
  if String.eqb msg_type "system" then esc ++ "[94m"
  else if String.eqb msg_type "welcome" then esc ++ "[92m"
  else if String.eqb msg_type "error" then esc ++ "[91m"
  else if String.eqb msg_type "whisper" then esc ++ "[95m"
  else esc ++ "[0m".

Definition reset : string := esc ++ "[0m".

(** [display_message(message_data)]: the line it prints; [local_time] is
    what the client's own [get_timestamp] returns. *)
Definition display_message (local_time : string)
    (message_data : list (string * string)) : string :=
  let timestamp := JsonLoads.dict_get "timestamp" local_time message_data in
  let sender := JsonLoads.dict_get "sender" "Unknown" message_data in
  let message := JsonLoads.dict_get "message" EmptyString message_data in
  let msg_type := JsonLoads.dict_get "type" "message" message_data in
  if String.eqb msg_type "whisper"
  then color msg_type ++ "[" ++ timestamp ++ "] " ++ sender ++ ": " ++ message ++ reset
  else if String.eqb sender "Server"
  then color msg_type ++ "[" ++ timestamp ++ "] " ++ message ++ reset
  else color msg_type ++ "[" ++ timestamp ++ "] " ++ sender ++ ": " ++ message ++ reset.

(** What one turn of the loop of [receive_messages] does with the data of
    one [recv]. *)
Inductive turn : Type :=
| Printed (line : string) (goes_on : bool)  (* the line printed; whether the
                                               loop goes on *)
| Stopped          (* an exception other than [JSONDecodeError]: the loop
                      ends, with a line that quotes the exception *)
| OutsideModel.    (* a JSON value the decoder does not cover *)

(** One turn of [receive_messages] while [self.running] holds. *)
Definition receive_messages_turn (local_time : string) (r : received) : turn :=
  match r with
  | Text data =>
      if PyStr.is_empty data
      then Printed ("[" ++ local_time ++ "] Connection lost") false
      else
        match JsonLoads.loads data with
        | JsonLoads.Decoded message => Printed (display_message local_time message) true
        | JsonLoads.DecodeError =>
            Printed ("[" ++ local_time ++ "] Received invalid data") true
        | JsonLoads.Unsupported => OutsideModel
        end
  | Undecodable | RecvError => Stopped
  end.

(** What the chat loop of [main] does with one line typed by the user. *)
Inductive typed : Type :=
| Ignored                   (* an empty line: [continue] *)
| Quits                     (* sends [/quit] and leaves the loop *)
| LocalHelp                 (* prints the client's own help, sends nothing *)
| Sends (message : string). (* [client.send_message(message)] *)

(** One turn of the chat loop of [main], lines 213 to 227. *)
Definition chat_loop_turn (line : string) : typed :=
  let message := PyStr.strip line in
  if PyStr.is_empty message then Ignored
  else if String.eqb (PyStr.lower message) "/quit" then Quits
  else if String.eqb (PyStr.lower message) "/help" then LocalHelp
  else Sends message.

(** One turn of the username loop of [main], lines 196 to 206: the name
    that is sent, or [None] when the user is asked again. *)
Definition username_prompt_turn (line : string) : option string :=
  let username := PyStr.strip line in
  if PyStr.truthy username then Some username else None.

(** The text a turn of the chat loop puts on the socket, if any. *)
Definition sent_text (t : typed) : option string :=
  match t with
  | Quits => Some "/quit"
  | Sends message => Some message
  | Ignored | LocalHelp => None
  end.

End Client.

(** * Properties *)

(** ** Strings *)

Lemma lstrip_all_space (s : string) :
  all_space s = true -> PyStr.lstrip s = EmptyString.
Proof.
  induction s as [|a r IH]; simpl; [reflexivity|].
  intros H. apply andb_prop in H as [Ha Hr].
  rewrite Ha. now apply IH.
Qed.

Lemma strip_all_space (s : string) :
  all_space s = true -> PyStr.strip s = EmptyString.
Proof.
  intros H. unfold PyStr.strip. now rewrite lstrip_all_space.
Qed.

(** ** The dictionary *)

Module DictFacts.
Import Dict.

Lemma contains_In (k : socket) (d : t) :
  contains k d = true <-> In k (keys d).
Proof.
  unfold contains. rewrite existsb_exists. split.
  - intros (x & Hx & E). apply Nat.eqb_eq in E. now subst.
  - intros H. exists k. split; [assumption | apply Nat.eqb_refl].
Qed.

Lemma contains_false (k : socket) (d : t) :
  contains k d = false <-> ~ In k (keys d).
Proof.
  rewrite <- contains_In. destruct (contains k d); split; intros H;
    congruence.
Qed.

Lemma without_absent (k : socket) (d : t) :
  ~ In k (keys d) -> without k d = d.
Proof.
  induction d as [|[k' v] r IH]; simpl; intros H; [reflexivity|].
  destruct (Nat.eqb_spec k k') as [->|N]; simpl.
  - exfalso. apply H. now left.
  - f_equal. apply IH. intros Hin. apply H. now right.
Qed.

Lemma del_present (k : socket) (d : t) :
  NoDup (keys d) -> In k (keys d) -> del k d = Some (without k d).
Proof.
  induction d as [|[k' v] r IH]; simpl; intros ND Hin; [contradiction|].
  inversion ND as [|? ? Hnot ND']; subst.
  destruct (Nat.eqb_spec k k') as [->|N]; simpl.
  - now rewrite without_absent.
  - destruct Hin as [E|Hin]; [congruence|].
    now rewrite IH.
Qed.

Lemma del_defined (k : socket) (d : t) :
  In k (keys d) -> del k d <> None.
Proof.
  induction d as [|[k' v] r IH]; simpl; intros Hin; [contradiction|].
  destruct (Nat.eqb_spec k k') as [->|N]; [discriminate|].
  destruct Hin as [E|Hin]; [congruence|].
  specialize (IH Hin). destruct (del k r); congruence.
Qed.

Lemma contains_filter_key (g : socket -> bool) (k : socket) (d : t) :
  contains k (filter (fun kv => g (fst kv)) d) = contains k d && g k.
Proof.
  unfold contains, keys.
  induction d as [|[k' v] r IH]; simpl; [reflexivity|].
  destruct (g k') eqn:G; simpl; rewrite IH;
    destruct (Nat.eqb_spec k k') as [->|N]; simpl; try reflexivity.
  - now rewrite G.
  - rewrite G. now rewrite andb_false_r.
Qed.

Lemma keys_filter_sub (f : socket * client_info -> bool) (d : t) (k : socket) :
  In k (keys (filter f d)) -> In k (keys d).
Proof.
  unfold keys. rewrite !in_map_iff.
  intros (kv & E & H). apply filter_In in H as [H _]. now exists kv.
Qed.

Lemma keys_filter_nodup (f : socket * client_info -> bool) (d : t) :
  NoDup (keys d) -> NoDup (keys (filter f d)).
Proof.
  induction d as [|kv r IH]; simpl; intros ND; [constructor|].
  inversion ND as [|? ? Hnot ND']; subst.
  destruct (f kv); simpl; [|now apply IH].
  constructor; [|now apply IH].
  intros H. apply Hnot. eapply keys_filter_sub, H.
Qed.

Lemma keys_without (k c : socket) (d : t) :
  In c (keys (without k d)) <-> In c (keys d) /\ c <> k.
Proof.
  unfold without, keys. rewrite !in_map_iff. split.
  - intros (kv & E & H). apply filter_In in H as [H Hk].
    apply negb_true_iff in Hk. apply Nat.eqb_neq in Hk. subst c.
    split; [now exists kv | congruence].
  - intros [(kv & E & H) N]. exists kv. split; [assumption|].
    apply filter_In. split; [assumption|].
    apply negb_true_iff. apply Nat.eqb_neq. congruence.
Qed.

Lemma keys_set (k : socket) (v : client_info) (d : t) (c : socket) :
  In c (keys (set k v d)) <-> c = k \/ In c (keys d).
Proof.
  induction d as [|[k' v'] r IH]; simpl.
  - intuition congruence.
  - destruct (Nat.eqb_spec k k') as [->|N]; simpl.
    + intuition congruence.
    + rewrite IH. intuition congruence.
Qed.

Lemma set_nodup (k : socket) (v : client_info) (d : t) :
  NoDup (keys d) -> NoDup (keys (set k v d)).
Proof.
  induction d as [|[k' v'] r IH]; simpl; intros ND.
  - constructor; [intros [] | constructor].
  - inversion ND as [|? ? Hnot ND']; subst.
    destruct (Nat.eqb_spec k k') as [->|N]; simpl.
    + now constructor.
    + constructor; [|now apply IH].
      rewrite keys_set. intros [E|H]; [congruence | contradiction].
Qed.

Lemma get_set_same (k : socket) (v : client_info) (d : t) :
  get k (set k v d) = Some v.
Proof.
  induction d as [|[k' v'] r IH]; simpl.
  - now rewrite Nat.eqb_refl.
  - destruct (Nat.eqb_spec k k') as [->|N]; simpl.
    + now rewrite Nat.eqb_refl.
    + destruct (Nat.eqb_spec k k'); [congruence | exact IH].
Qed.

Lemma usernames_set_fresh (k : socket) (v : client_info) (d : t) :
  ~ In k (keys d) -> usernames (set k v d) = (usernames d ++ [username v])%list.
Proof.
  induction d as [|[k' v'] r IH]; simpl; intros H; [reflexivity|].
  destruct (Nat.eqb_spec k k') as [->|N]; simpl.
  - exfalso. apply H. now left.
  - unfold usernames, values in *. simpl. f_equal. apply IH.
    intros Hin. apply H. now right.
Qed.

End DictFacts.

(** ** Sending *)

Lemma mem_In (c : socket) (l : list socket) : mem c l = true <-> In c l.
Proof.
  unfold mem. rewrite existsb_exists. split.
  - intros (x & Hx & E). apply Nat.eqb_eq in E. now subst.
  - intros H. exists c. split; [assumption | apply Nat.eqb_refl].
Qed.

Lemma mem_cons (c x : socket) (l : list socket) :
  mem c (x :: l) = Nat.eqb c x || mem c l.
Proof. reflexivity. Qed.

Lemma inbox_snoc (d c : socket) (data : string) (st st' : server) :
  wire st' = (wire st ++ [(c, data)])%list ->
  inbox d st' = if Nat.eqb c d then (inbox d st ++ [data])%list else inbox d st.
Proof.
  intros E. unfold inbox. rewrite E, filter_app, map_app. simpl.
  destruct (Nat.eqb c d); simpl; [reflexivity | apply app_nil_r].
Qed.

Lemma inbox_same_wire (d : socket) (st st' : server) :
  wire st' = wire st -> inbox d st' = inbox d st.
Proof. intros E. unfold inbox. now rewrite E. Qed.

Lemma encode_message_eq (sender message msg_type : string) (st : server) :
  encode_message sender message msg_type st
  = (Return (event (clock st (reads st)) sender message msg_type),
     set_reads (S (reads st)) st).
Proof. reflexivity. Qed.

(** A write on a working socket puts one event on the wire; on a broken or
    closed socket it raises, after the clock was read. *)
Lemma send_event_eq (c : socket) (sender message msg_type : string) (st : server) :
  send_event c sender message msg_type st
  = if mem c (down st)
    then (Raise, set_reads (S (reads st)) st)
    else (Return tt,
          set_wire (wire st ++ [(c, event (clock st (reads st)) sender message msg_type)])%list
            (set_reads (S (reads st)) st)).
Proof.
  unfold send_event, bind. rewrite encode_message_eq.
  unfold send. simpl. now destruct (mem c (down st)).
Qed.

(** ** The broadcast loop *)

Section Broadcast.

Variables (message sender : string) (exclude : option socket) (msg_type : string).

Lemma broadcast_to_eq (client_conn : socket) (st : server) :
  NoDup (Dict.keys (clients st)) ->
  broadcast_to message sender exclude msg_type client_conn st
  = (Return tt, after_one message sender exclude msg_type client_conn st).
Proof.
  intros ND. unfold broadcast_to, after_one.
  destruct (is_excluded client_conn exclude); simpl; [reflexivity|].
  unfold try_except. change (bind (encode_message sender message msg_type)
    (fun data => send client_conn data)) with (send_event client_conn sender message msg_type).
  rewrite send_event_eq.
  destruct (mem client_conn (down st)) eqn:Hd; [|reflexivity].
  unfold drop_failed. simpl.
  destruct (Dict.contains client_conn (clients st)) eqn:Hc.
  - apply DictFacts.contains_In in Hc.
    now rewrite (DictFacts.del_present _ _ ND Hc).
  - apply DictFacts.contains_false in Hc.
    rewrite (DictFacts.without_absent _ _ Hc). now destruct st.
Qed.

Lemma after_one_nodup (client_conn : socket) (st : server) :
  NoDup (Dict.keys (clients st)) ->
  NoDup (Dict.keys (clients (after_one message sender exclude msg_type client_conn st))).
Proof.
  intros ND. unfold after_one.
  destruct (is_excluded client_conn exclude); [assumption|].
  destruct (mem client_conn (down st)); simpl; [|assumption].
  now apply DictFacts.keys_filter_nodup.
Qed.

Lemma after_one_frame (client_conn : socket) (st : server) :
  down (after_one message sender exclude msg_type client_conn st) = down st
  /\ running (after_one message sender exclude msg_type client_conn st) = running st
  /\ clock (after_one message sender exclude msg_type client_conn st) = clock st.
Proof.
  unfold after_one.
  destruct (is_excluded client_conn exclude); [now repeat split|].
  destruct (mem client_conn (down st)); now repeat split.
Qed.

Lemma filter_twice {A} (f g : A -> bool) (l : list A) :
  filter f (filter g l) = filter (fun a => g a && f a) l.
Proof.
  induction l as [|a r IH]; simpl; [reflexivity|].
  destruct (g a); simpl; [destruct (f a)|]; now rewrite IH.
Qed.

(** The loop over a snapshot [ks]: it never raises, it removes exactly the
    keys whose write fails, and it writes exactly one event to each of the
    others. *)
Lemma for_each_broadcast (ks : list socket) :
  forall st : server,
    NoDup (Dict.keys (clients st)) ->
    exists st',
      for_each ks (broadcast_to message sender exclude msg_type) st = (Return tt, st')
      /\ down st' = down st /\ running st' = running st /\ clock st' = clock st
      /\ clients st'
         = filter (fun kv => negb (fails exclude (down st) ks (fst kv))) (clients st)
      /\ (NoDup ks ->
          forall d,
            if reached exclude (down st) ks d
            then exists n,
                inbox d st'
                = (inbox d st ++ [event (clock st n) sender message msg_type])%list
            else inbox d st' = inbox d st).
Proof.
  induction ks as [|x r IH]; intros st ND.
  - exists st. simpl. repeat split; try reflexivity.
    symmetry. apply forallb_filter_id. now apply forallb_forall.
  - simpl. unfold bind. rewrite (broadcast_to_eq x st ND).
    destruct (after_one_frame x st) as (Fd & Fr & Fc).
    destruct (IH (after_one message sender exclude msg_type x st) (after_one_nodup x st ND))
      as (st' & Hrun & Hd & Hr & Hc & Hcl & Hin).
    exists st'. rewrite Hrun, Hd, Hr, Hc, Fd, Fr, Fc.
    repeat split; try reflexivity.
    + rewrite Hcl, Fd. unfold after_one, fails.
      destruct (is_excluded x exclude) eqn:Hx.
      * apply filter_ext. intros [k v]. simpl.
        destruct (Nat.eqb_spec k x) as [->|N]; simpl; [|reflexivity].
        rewrite Hx. simpl. now rewrite andb_false_r.
      * destruct (mem x (down st)) eqn:Hdx; simpl.
        -- unfold Dict.without. rewrite filter_twice.
           apply filter_ext. intros [k v]. simpl.
           rewrite (Nat.eqb_sym x k).
           destruct (Nat.eqb_spec k x) as [->|N]; simpl; [|reflexivity].
           now rewrite Hx, Hdx.
        -- apply filter_ext. intros [k v]. simpl.
           destruct (Nat.eqb_spec k x) as [->|N]; simpl; [|reflexivity].
           rewrite Hdx. now rewrite !andb_false_r.
    + intros NDks d. inversion NDks as [|? ? Hnot NDr]; subst.
      specialize (Hin NDr d). rewrite Fd, Fc in Hin.
      unfold reached in *. rewrite mem_cons.
      assert (Hone : inbox d (after_one message sender exclude msg_type x st)
                     = if Nat.eqb d x && negb (is_excluded d exclude) && negb (mem d (down st))
                       then (inbox d st ++ [event (clock st (reads st)) sender message msg_type])%list
                       else inbox d st).
      { unfold after_one.
        destruct (Nat.eqb_spec d x) as [->|N]; simpl.
        - destruct (is_excluded x exclude); simpl; [reflexivity|].
          destruct (mem x (down st)); simpl.
          + now apply inbox_same_wire.
          + erewrite inbox_snoc by reflexivity. now rewrite Nat.eqb_refl.
        - destruct (is_excluded x exclude); simpl; [reflexivity|].
          destruct (mem x (down st)); simpl.
          + now apply inbox_same_wire.
          + erewrite inbox_snoc by reflexivity.
            destruct (Nat.eqb_spec x d); [congruence | reflexivity]. }
      destruct (Nat.eqb_spec d x) as [->|N]; simpl in *.
      * assert (Hr' : mem x r = false).
        { destruct (mem x r) eqn:E; [|reflexivity].
          apply mem_In in E. contradiction. }
        rewrite Hr' in Hin. simpl in Hin. rewrite Hin, Hone.
        destruct (negb (is_excluded x exclude) && negb (mem x (down st)));
          [now exists (reads st) | reflexivity].
      * rewrite Hone in Hin. exact Hin.
Qed.

End Broadcast.

(** [broadcast] as a whole: the snapshot is the key list of the dict. *)
Lemma broadcast_spec (message sender : string) (exclude : option socket)
    (msg_type : string) (st : server) :
  NoDup (Dict.keys (clients st)) ->
  exists st',
    broadcast message sender exclude msg_type st = (Return tt, st')
    /\ down st' = down st /\ running st' = running st /\ clock st' = clock st
    /\ clients st'
       = filter (fun kv => negb (fails exclude (down st) (Dict.keys (clients st)) (fst kv)))
           (clients st)
    /\ forall d,
         if reached exclude (down st) (Dict.keys (clients st)) d
         then exists n,
             inbox d st'
             = (inbox d st ++ [event (clock st n) sender message msg_type])%list
         else inbox d st' = inbox d st.
Proof.
  intros ND. unfold broadcast.
  destruct (for_each_broadcast message sender exclude msg_type
              (Dict.keys (clients st)) st ND)
    as (st' & Hrun & Hd & Hr & Hc & Hcl & Hin).
  exists st'. repeat split; try assumption. now apply Hin.
Qed.

Lemma broadcast_returns (message sender : string) (exclude : option socket)
    (msg_type : string) (st : server) :
  NoDup (Dict.keys (clients st)) ->
  broadcast message sender exclude msg_type st
  = (Return tt, exec (broadcast message sender exclude msg_type) st).
Proof.
  intros ND.
  destruct (broadcast_spec message sender exclude msg_type st ND) as (st' & Hrun & _).
  unfold exec. now rewrite Hrun.
Qed.

(** A write failure inside [broadcast] evicts the failing peer and the
    loop goes on: every key of the dict that is down and not excluded is
    gone afterwards, every other entry stays. *)
Lemma broadcast_evicts_failed (message sender : string) (exclude : option socket)
    (msg_type : string) (st : server) (d : socket) :
  NoDup (Dict.keys (clients st)) ->
  Dict.contains d (clients (exec (broadcast message sender exclude msg_type) st))
  = Dict.contains d (clients st)
    && negb (negb (is_excluded d exclude) && mem d (down st)).
Proof.
  intros ND.
  destruct (broadcast_spec message sender exclude msg_type st ND)
    as (st' & Hrun & _ & _ & _ & Hcl & _).
  unfold exec. rewrite Hrun. simpl. rewrite Hcl.
  rewrite (DictFacts.contains_filter_key
             (fun k => negb (fails exclude (down st) (Dict.keys (clients st)) k))).
  unfold fails. change (mem d (Dict.keys (clients st))) with (Dict.contains d (clients st)).
  now destruct (Dict.contains d (clients st)).
Qed.

Example room_registry :
  clients (shared Scenario.room)
  = [(1, mkInfo "alice" Scenario.addr1); (2, mkInfo "bob" Scenario.addr2);
     (3, mkInfo "carol" Scenario.addr3)]
  /\ map t_pc (threads Scenario.room)
     = [Receiving "alice"; Receiving "bob"; Receiving "carol"].
Proof. split; reflexivity. Qed.

(** ** Plain messages *)

(** C2, as the claim states it, fails: with alice, bob and carol in the
    room, a plain message of alice is written to bob and to carol once, and
    to alice herself as well. *)
Lemma plain_message_echoed_to_sender :
  let before := shared Scenario.room in
  let after := snd (handle_client_recv 1 Scenario.addr1 (Receiving "alice")
                      (Text "hello") before) in
  let sent := event (Scenario.tick 9) "alice" "hello" "message" in
  inbox 2 after = (inbox 2 before ++ [event (Scenario.tick 10) "alice" "hello" "message"])%list
  /\ inbox 3 after = (inbox 3 before ++ [event (Scenario.tick 11) "alice" "hello" "message"])%list
  /\ inbox 1 after = (inbox 1 before ++ [sent])%list
  /\ inbox 1 after <> inbox 1 before.
Proof.
  vm_compute. repeat split; try reflexivity. discriminate.
Qed.

(** C2, amended: a plain message received from an active session is
    written exactly once, as a message-kind event carrying the sender's
    username, to every registered session whose socket accepts the write,
    the sending session included; nothing is written to any other socket,
    and the sender's loop goes on. *)
Theorem plain_message_reaches_every_client
    (conn : socket) (addr : address) (username data : string) (st : server) :
  keys_distinct st ->
  PyStr.is_empty data = false ->
  PyStr.startswith "/" (PyStr.strip data) = false ->
  exists st',
    handle_client_recv conn addr (Receiving username) (Text data) st
    = (LoopTop username, st')
    /\ (forall d,
          if Dict.contains d (clients st) && negb (mem d (down st))
          then exists n,
              inbox d st'
              = (inbox d st ++ [event (clock st n) username (PyStr.strip data) "message"])%list
          else inbox d st' = inbox d st)
    /\ (Dict.contains conn (clients st) = true -> mem conn (down st) = false ->
        exists n,
          inbox conn st'
          = (inbox conn st ++ [event (clock st n) username (PyStr.strip data) "message"])%list).
Proof.
  intros ND Hne Hplain.
  destruct (broadcast_spec (PyStr.strip data) username None "message" st ND)
    as (st' & Hrun & _ & _ & _ & _ & Hin).
  exists st'. simpl. rewrite Hne, Hplain. unfold exec. rewrite Hrun. simpl.
  assert (Hall : forall d,
             if Dict.contains d (clients st) && negb (mem d (down st))
             then exists n,
                 inbox d st'
                 = (inbox d st ++ [event (clock st n) username (PyStr.strip data) "message"])%list
             else inbox d st' = inbox d st).
  { intros d. specialize (Hin d). unfold reached in Hin. simpl in Hin.
    rewrite andb_true_r in Hin. exact Hin. }
  split; [reflexivity|]. split; [exact Hall|].
  intros Hc Hd. specialize (Hall conn). now rewrite Hc, Hd in Hall.
Qed.

Lemma plain_message_reaches_every_client_witness :
  keys_distinct (shared Scenario.room)
  /\ exists st',
      handle_client_recv 1 Scenario.addr1 (Receiving "alice") (Text " hello ")
        (shared Scenario.room)
      = (LoopTop "alice", st')
      /\ (forall d,
            if Dict.contains d (clients (shared Scenario.room))
               && negb (mem d (down (shared Scenario.room)))
            then exists n,
                inbox d st'
                = (inbox d (shared Scenario.room)
                   ++ [event (clock (shared Scenario.room) n) "alice"
                         (PyStr.strip " hello ") "message"])%list
            else inbox d st' = inbox d (shared Scenario.room))
      /\ (Dict.contains 1 (clients (shared Scenario.room)) = true ->
          mem 1 (down (shared Scenario.room)) = false ->
          exists n,
            inbox 1 st'
            = (inbox 1 (shared Scenario.room)
               ++ [event (clock (shared Scenario.room) n) "alice"
                     (PyStr.strip " hello ") "message"])%list).
Proof.
  assert (ND : NoDup (Dict.keys (clients (shared Scenario.room)))).
  { vm_compute. repeat constructor; simpl; intuition discriminate. }
  split; [exact ND|].
  apply (plain_message_reaches_every_client 1 Scenario.addr1 "alice" " hello "
           (shared Scenario.room) ND); reflexivity.
Defined.

(** ** Whisper *)

Lemma find_target_none (target_user : string) (d : Dict.t) :
  find_target target_user d = None <-> ~ In target_user (Dict.usernames d).
Proof.
  induction d as [|[k v] r IH]; simpl.
  - intuition.
  - destruct (String.eqb_spec (username v) target_user) as [E|N].
    + split; [discriminate|]. intros H. exfalso. apply H. now left.
    + rewrite IH. unfold Dict.usernames, Dict.values. simpl. intuition.
Qed.

Lemma find_target_some (target_user : string) (d : Dict.t) (c : socket) :
  find_target target_user d = Some c ->
  exists info, In (c, info) d /\ username info = target_user.
Proof.
  induction d as [|[k v] r IH]; simpl; [discriminate|].
  destruct (String.eqb_spec (username v) target_user) as [E|N].
  - intros [= <-]. exists v. split; [now left | assumption].
  - intros H. destruct (IH H) as (info & Hin & Hu).
    exists info. split; [now right | assumption].
Qed.

(** The whisper branch of [handle_command], once the command is parsed. *)
Lemma handle_command_whisper
    (conn : socket) (username command part0 target_user word : string)
    (rest : list string) (st : server) :
  PyStr.split command = part0 :: target_user :: word :: rest ->
  PyStr.lower part0 = "/whisper" ->
  handle_command conn username command st
  = match find_target target_user (clients st) with
    | Some target =>
        if Nat.eqb target conn
        then send_event conn "Server"
               ("User '" ++ target_user ++ "' not found or is yourself") "error" st
        else (send_event target ("[Whisper from " ++ username ++ "]")
                (PyStr.join " " (word :: rest)) "whisper" ;;;
              send_event conn "Server" ("Whisper sent to " ++ target_user) "system") st
    | None =>
        send_event conn "Server"
          ("User '" ++ target_user ++ "' not found or is yourself") "error" st
    end.
Proof.
  intros Hsplit Hcmd. unfold handle_command. rewrite Hsplit, Hcmd.
  cbn [String.eqb Ascii.eqb Bool.eqb andb List.length Nat.leb nth skipn].
  unfold bind at 1. unfold lookup_target. cbv beta iota.
  destruct (find_target target_user (clients st)) as [target|]; [|reflexivity].
  now destruct (Nat.eqb target conn).
Qed.

(** C5: the whisper command, with the sockets it writes to in working
    order. When the target name is not registered, or the first session of
    that name is the sender's own, the only write is one error-kind event
    to the sender. Otherwise the only writes are one whisper-kind event to
    the target and one system-kind confirmation to the sender. *)
Theorem whisper_routing
    (conn : socket) (username command part0 target_user word : string)
    (rest : list string) (st : server) :
  PyStr.split command = part0 :: target_user :: word :: rest ->
  PyStr.lower part0 = "/whisper" ->
  mem conn (down st) = false ->
  match find_target target_user (clients st) with
  | None =>
      exists st', handle_command conn username command st = (Return tt, st')
                  /\ whisper_refused conn target_user st st'
  | Some target =>
      if Nat.eqb target conn
      then exists st', handle_command conn username command st = (Return tt, st')
                       /\ whisper_refused conn target_user st st'
      else mem target (down st) = false ->
           exists st', handle_command conn username command st = (Return tt, st')
                       /\ whisper_delivered conn target username target_user
                            (PyStr.join " " (word :: rest)) st st'
  end.
Proof.
  intros Hsplit Hcmd Hconn.
  rewrite (handle_command_whisper conn username command part0 target_user word
             rest st Hsplit Hcmd).
  destruct (find_target target_user (clients st)) as [target|].
  - destruct (Nat.eqb target conn) eqn:Hself.
    + rewrite send_event_eq, Hconn. eexists. split; [reflexivity|].
      split; reflexivity.
    + intros Htarget. unfold bind. rewrite send_event_eq, Htarget.
      rewrite send_event_eq. cbn [down set_wire set_reads]. rewrite Hconn.
      eexists. split; [reflexivity|]. split; [reflexivity|].
      cbn [wire set_wire set_reads clock reads]. now rewrite <- app_assoc.
  - rewrite send_event_eq, Hconn. eexists. split; [reflexivity|].
    split; reflexivity.
Qed.

Lemma whisper_routing_witness :
  PyStr.split "/whisper bob see you  at noon" = ["/whisper"; "bob"; "see"; "you"; "at"; "noon"]
  /\ find_target "bob" (clients (shared Scenario.room)) = Some 2
  /\ exists st',
      handle_command 1 "alice" "/whisper bob see you  at noon" (shared Scenario.room)
      = (Return tt, st')
      /\ whisper_delivered 1 2 "alice" "bob" "see you at noon"
           (shared Scenario.room) st'.
Proof.
  assert (Hparts : PyStr.split "/whisper bob see you  at noon"
                   = ["/whisper"; "bob"; "see"; "you"; "at"; "noon"])
    by (vm_compute; reflexivity).
  assert (Hfound : find_target "bob" (clients (shared Scenario.room)) = Some 2)
    by (vm_compute; reflexivity).
  assert (Hup1 : mem 1 (down (shared Scenario.room)) = false)
    by (vm_compute; reflexivity).
  assert (Hup2 : mem 2 (down (shared Scenario.room)) = false)
    by (vm_compute; reflexivity).
  split; [exact Hparts|]. split; [exact Hfound|].
  pose proof (whisper_routing 1 "alice" "/whisper bob see you  at noon"
                "/whisper" "bob" "see" ["you"; "at"; "noon"] (shared Scenario.room)
                Hparts eq_refl Hup1) as H.
  rewrite Hfound in H. exact (H Hup2).
Defined.

(** ** Leaving: [/quit] and the end of the loop *)

Lemma contains_without (c : socket) (d : Dict.t) :
  Dict.contains c (Dict.without c d) = false.
Proof.
  apply DictFacts.contains_false. rewrite DictFacts.keys_without. intuition.
Qed.

Lemma remove_client_eq (conn : socket) (st : server) :
  NoDup (Dict.keys (clients st)) ->
  remove_client conn st
  = (Return tt, set_clients (Dict.without conn (clients st)) st).
Proof.
  intros ND. unfold remove_client.
  destruct (Dict.contains conn (clients st)) eqn:Hc.
  - apply DictFacts.contains_In in Hc.
    now rewrite (DictFacts.del_present _ _ ND Hc).
  - apply DictFacts.contains_false in Hc.
    rewrite (DictFacts.without_absent _ _ Hc). now destruct st.
Qed.

Lemma close_marks_down (c : socket) (st : server) :
  mem c (down (exec (close c) st)) = true
  /\ clients (exec (close c) st) = clients st
  /\ wire (exec (close c) st) = wire st.
Proof.
  unfold exec, close. simpl.
  destruct (mem c (down st)) eqn:E; simpl; [now rewrite E|].
  rewrite Nat.eqb_refl. now repeat split.
Qed.

Lemma finally_tears_down (conn : socket) (addr : address) (username : string) :
  PyStr.truthy username = true -> tears_down conn addr username.
Proof.
  intros Hname st ND. unfold handle_client_run at 1. rewrite Hname.
  unfold exec at 1. rewrite (remove_client_eq conn st ND). simpl snd.
  set (st1 := set_clients (Dict.without conn (clients st)) st).
  assert (ND1 : NoDup (Dict.keys (clients st1)))
    by (simpl; now apply DictFacts.keys_filter_nodup).
  destruct (broadcast_spec (username ++ " has left the chat.") "system" None
              "message" st1 ND1)
    as (st' & Hrun & Hd & _ & _ & Hcl & Hin).
  exists st1, (exec (close conn) st').
  destruct (close_marks_down conn st') as (Cd & Cc & Cw).
  repeat split; try reflexivity.
  - unfold handle_client_run, exec, bind. now rewrite Hrun.
  - rewrite Cc, Hcl.
    rewrite (DictFacts.contains_filter_key
               (fun k => negb (fails None (down st1) (Dict.keys (clients st1)) k))).
    simpl clients. now rewrite contains_without.
  - exact Cd.
  - intros d. specialize (Hin d). unfold reached in Hin. simpl is_excluded in Hin.
    rewrite andb_true_r in Hin.
    change (mem d (Dict.keys (clients st1))) with (Dict.contains d (clients st1)) in Hin.
    rewrite (inbox_same_wire d st' (exec (close conn) st') Cw).
    exact Hin.
Qed.

(** C6, as the claim states it, fails: after [/quit] from alice the server
    has only written the farewell; alice is still registered, her thread
    waits in [recv] again, and nobody was told that she left. *)
Lemma quit_leaves_session_registered :
  let after := run_schedule [Recv 1 (Text "/quit"); Run 1] Scenario.room in
  Scenario.pc_of 1 after = Some (Receiving "alice")
  /\ Dict.contains 1 (clients (shared after)) = true
  /\ inbox 1 (shared after)
     = (inbox 1 (shared Scenario.room)
        ++ [event (Scenario.tick 9) "Server" "Goodbye!" "system"])%list
  /\ inbox 2 (shared after) = inbox 2 (shared Scenario.room)
  /\ inbox 3 (shared after) = inbox 3 (shared Scenario.room).
Proof. vm_compute. repeat split; reflexivity. Qed.

(** C6, amended: [/quit] from an active session whose socket accepts the
    write sends that session one farewell event and nothing else: the
    registry is unchanged and the thread is back at the top of its loop,
    where it waits for the next [recv] as long as the server runs. The
    receive loop ends on an empty read or on a failed read; for a session
    with a non-empty username the [finally] block then removes it from the
    registry and broadcasts its departure. *)
Theorem quit_sends_farewell_only
    (conn : socket) (addr : address) (username data part0 : string)
    (rest : list string) (st : server) :
  PyStr.startswith "/" (PyStr.strip data) = true ->
  PyStr.split (PyStr.strip data) = part0 :: rest ->
  PyStr.lower part0 = "/quit" ->
  mem conn (down st) = false ->
  (exists st',
      handle_client_recv conn addr (Receiving username) (Text data) st
      = (LoopTop username, st')
      /\ clients st' = clients st
      /\ wire st'
         = (wire st ++ [(conn, event (clock st (reads st)) "Server" "Goodbye!" "system")])%list
      /\ (running st = true ->
          handle_client_run conn addr (LoopTop username) st' = (Receiving username, st')))
  /\ (forall st2,
        handle_client_recv conn addr (Receiving username) (Text EmptyString) st2
        = (Finally username, st2)
        /\ handle_client_recv conn addr (Receiving username) RecvError st2
           = (Finally username, st2))
  /\ (PyStr.truthy username = true -> tears_down conn addr username).
Proof.
  intros Hslash Hsplit Hcmd Hconn.
  assert (Hne : PyStr.is_empty data = false).
  { destruct data; [discriminate Hsplit | reflexivity]. }
  split; [|split; [intros st2; split; reflexivity | apply finally_tears_down]].
  unfold handle_client_recv. rewrite Hne, Hslash.
  unfold handle_command. rewrite Hsplit, Hcmd.
  cbn [String.eqb Ascii.eqb Bool.eqb andb].
  rewrite send_event_eq, Hconn.
  eexists. split; [reflexivity|]. repeat split.
  intros Hrun. unfold handle_client_run. cbn [running set_wire set_reads].
  now rewrite Hrun.
Qed.

Lemma quit_sends_farewell_only_witness :
  mem 1 (down (shared Scenario.room)) = false
  /\ (exists st',
         handle_client_recv 1 Scenario.addr1 (Receiving "alice") (Text "/QUIT now ")
           (shared Scenario.room)
         = (LoopTop "alice", st')
         /\ clients st' = clients (shared Scenario.room)
         /\ wire st'
            = (wire (shared Scenario.room)
               ++ [(1, event (clock (shared Scenario.room) (reads (shared Scenario.room)))
                         "Server" "Goodbye!" "system")])%list
         /\ (running (shared Scenario.room) = true ->
             handle_client_run 1 Scenario.addr1 (LoopTop "alice") st'
             = (Receiving "alice", st')))
  /\ tears_down 1 Scenario.addr1 "alice".
Proof.
  assert (Hup : mem 1 (down (shared Scenario.room)) = false)
    by (vm_compute; reflexivity).
  assert (Hslash : PyStr.startswith "/" (PyStr.strip "/QUIT now ") = true)
    by (vm_compute; reflexivity).
  assert (Hsplit : PyStr.split (PyStr.strip "/QUIT now ") = ["/QUIT"; "now"])
    by (vm_compute; reflexivity).
  assert (Hcmd : PyStr.lower "/QUIT" = "/quit") by (vm_compute; reflexivity).
  destruct (quit_sends_farewell_only 1 Scenario.addr1 "alice" "/QUIT now " "/QUIT"
              ["now"] (shared Scenario.room) Hslash Hsplit Hcmd Hup)
    as (Hfarewell & _ & Hdown).
  split; [exact Hup|]. split; [exact Hfarewell|].
  apply Hdown. reflexivity.
Defined.

(** ** The codec *)

(** C7, as the claim states it, fails: two calls of [encode_message] with
    the same sender, body and kind, one after the other on a server whose
    clock has moved on by a second, return different bytes. *)
Lemma encode_message_reads_clock :
  let st0 := shared (initial Scenario.tick) in
  let first := encode_message "Server" "hi" "system" st0 in
  let second := encode_message "Server" "hi" "system" (snd first) in
  fst first = Return (event (Scenario.tick 0) "Server" "hi" "system")
  /\ fst second = Return (event (Scenario.tick 1) "Server" "hi" "system")
  /\ fst first <> fst second.
Proof.
  vm_compute. repeat split. discriminate.
Qed.

(** C7, amended: [encode_message] is a function of its three arguments and
    of the clock reading at the call. It never raises; on any two server
    states whose clocks read the same time of day it returns the same
    bytes for the same arguments; the bytes are the JSON text of a record
    with exactly the four fields timestamp, sender, message and type; and
    apart from having read the clock once it leaves the server as it was. *)
Theorem encode_message_function_of_clock
    (sender message msg_type : string) (st1 st2 : server) :
  Clock.hms (clock st1 (reads st1)) = Clock.hms (clock st2 (reads st2)) ->
  fst (encode_message sender message msg_type st1)
  = fst (encode_message sender message msg_type st2)
  /\ fst (encode_message sender message msg_type st1)
     = Return (Json.dumps [("timestamp", Clock.hms (clock st1 (reads st1)));
                           ("sender", sender); ("message", message);
                           ("type", msg_type)])
  /\ (let st' := snd (encode_message sender message msg_type st1) in
      clients st' = clients st1 /\ wire st' = wire st1 /\ down st' = down st1
      /\ running st' = running st1 /\ clock st' = clock st1
      /\ reads st' = S (reads st1)).
Proof.
  intros Hsame. rewrite !encode_message_eq. simpl fst. simpl snd.
  unfold event, message_data. rewrite Hsame. now repeat split.
Qed.

Lemma encode_message_function_of_clock_witness :
  let st1 := shared Scenario.room in
  let st2 := mkServer [] false [7] [] (fun _ => mkDatetime 1999 12 31 9 5 9) 3 in
  Clock.hms (clock st1 (reads st1)) = Clock.hms (clock st2 (reads st2))
  /\ fst (encode_message "bob" "good morning" "message" st1)
     = fst (encode_message "bob" "good morning" "message" st2).
Proof.
  assert (Hsame : Clock.hms (clock (shared Scenario.room) (reads (shared Scenario.room)))
                  = Clock.hms (mkDatetime 1999 12 31 9 5 9))
    by (vm_compute; reflexivity).
  split; [exact Hsame|].
  exact (proj1 (encode_message_function_of_clock "bob" "good morning" "message"
                  (shared Scenario.room)
                  (mkServer [] false [7] [] (fun _ => mkDatetime 1999 12 31 9 5 9) 3)
                  Hsame)).
Defined.

(** ** The handshake *)

Lemma username_taken_iff (candidate : string) (st : server) :
  username_taken candidate st = true
  <-> In candidate (Dict.usernames (clients st)) \/ PyStr.lower candidate = "server".
Proof.
  unfold username_taken. rewrite orb_true_iff, existsb_exists, String.eqb_eq.
  split; intros [H|H]; try (now right); left.
  - destruct H as (x & Hin & E). apply String.eqb_eq in E. now subst.
  - exists candidate. split; [assumption | apply String.eqb_refl].
Qed.

(** C8: the test of the handshake. The candidate, the stripped first
    message, is rejected exactly when it is the username of a registered
    session, compared as it is, or when its lower-case form is "server".
    A rejection leaves the registry as it was; an accepted candidate is
    what the thread inserts next, under the connection and its address. *)
Theorem username_rejected_iff
    (conn : socket) (addr : address) (data : string) (st : server) :
  PyStr.is_empty data = false ->
  let candidate := PyStr.strip data in
  let rejected :=
    In candidate (Dict.usernames (clients st)) \/ PyStr.lower candidate = "server" in
  exists p st',
    handle_client_recv conn addr Handshaking (Text data) st = (p, st')
    /\ clients st' = clients st
    /\ (p = Finally candidate <-> rejected)
    /\ (p = Checked candidate <-> ~ rejected)
    /\ (p = Checked candidate ->
        st' = st
        /\ forall st2,
             handle_client_run conn addr p st2
             = (Inserted candidate,
                set_clients (Dict.set conn (mkInfo candidate addr) (clients st2)) st2)).
Proof.
  intros Hne candidate rejected.
  pose proof (username_taken_iff candidate st) as Hiff. fold rejected in Hiff.
  unfold handle_client_recv. rewrite Hne. fold candidate.
  destruct (username_taken candidate st) eqn:Htaken.
  - eexists. eexists. split; [reflexivity|].
    assert (Hrej : rejected) by now apply Hiff.
    split.
    { unfold exec, bind. rewrite send_event_eq.
      destruct (mem conn (down st)); simpl; [reflexivity|].
      unfold close. simpl. now destruct (mem conn (down st)). }
    split; [tauto|]. split; [split; [discriminate | tauto] | discriminate].
  - exists (Checked candidate), st. split; [reflexivity|].
    assert (Hrej : ~ rejected).
    { intros H. apply Hiff in H. discriminate. }
    split; [reflexivity|]. split; [split; [discriminate | tauto]|].
    split; [tauto|]. intros _. split; reflexivity.
Qed.

Lemma username_rejected_iff_witness :
  PyStr.is_empty " SeRvEr " = false
  /\ PyStr.lower (PyStr.strip " SeRvEr ") = "server"
  /\ exists p st',
      handle_client_recv 4 ("127.0.0.1", 4004) Handshaking (Text " SeRvEr ")
        (shared Scenario.room) = (p, st')
      /\ clients st' = clients (shared Scenario.room)
      /\ p = Finally "SeRvEr".
Proof.
  split; [reflexivity|]. split; [vm_compute; reflexivity|].
  destruct (username_rejected_iff 4 ("127.0.0.1", 4004) " SeRvEr "
              (shared Scenario.room) eq_refl)
    as (p & st' & Hrun & Hkeep & Hrej & _).
  exists p, st'. split; [exact Hrun|]. split; [exact Hkeep|].
  apply Hrej. right. vm_compute. reflexivity.
Defined.

(** ** Removal *)

(** C9: the removal of [finally] never raises; once it has run the
    connection is absent, and running it again, or running it for a
    connection that was absent from the start, changes nothing. *)
Theorem remove_client_idempotent (conn : socket) (st : server) :
  keys_distinct st ->
  let st1 := exec (remove_client conn) st in
  fst (remove_client conn st) = Return tt
  /\ Dict.contains conn (clients st1) = false
  /\ remove_client conn st1 = (Return tt, st1)
  /\ (Dict.contains conn (clients st) = false ->
      remove_client conn st = (Return tt, st)).
Proof.
  intros ND st1. subst st1. unfold exec.
  rewrite (remove_client_eq conn st ND). simpl fst. simpl snd.
  split; [reflexivity|]. split; [apply contains_without|]. split.
  - unfold remove_client. simpl clients. now rewrite contains_without.
  - intros Habs. apply DictFacts.contains_false in Habs.
    rewrite (DictFacts.without_absent _ _ Habs). now destruct st.
Qed.

Lemma remove_client_idempotent_witness :
  let st := shared Scenario.room in
  let st1 := exec (remove_client 2) st in
  keys_distinct st
  /\ Dict.usernames (clients st1) = ["alice"; "carol"]
  /\ remove_client 2 st1 = (Return tt, st1).
Proof.
  assert (ND : NoDup (Dict.keys (clients (shared Scenario.room)))).
  { vm_compute. repeat constructor; simpl; intuition discriminate. }
  split; [exact ND|]. split; [vm_compute; reflexivity|].
  exact (proj1 (proj2 (proj2 (remove_client_idempotent 2 (shared Scenario.room) ND)))).
Defined.

(** ** Usernames made of whitespace *)

(** C10: a first message that is not empty and holds only whitespace is
    stripped to the empty string; when no registered session has the empty
    username the test lets it pass, and the next step of the thread, in
    whatever state the server then is, registers the connection under the
    empty username. *)
Theorem whitespace_username_is_registered
    (conn : socket) (addr : address) (data : string) (st : server) :
  PyStr.is_empty data = false ->
  all_space data = true ->
  ~ In EmptyString (Dict.usernames (clients st)) ->
  PyStr.strip data = EmptyString
  /\ handle_client_recv conn addr Handshaking (Text data) st = (Checked EmptyString, st)
  /\ forall st2,
       exists st3,
         handle_client_run conn addr (Checked EmptyString) st2
         = (Inserted EmptyString, st3)
         /\ Dict.get conn (clients st3) = Some (mkInfo EmptyString addr).
Proof.
  intros Hne Hws Hfree.
  pose proof (strip_all_space data Hws) as Hstrip.
  split; [exact Hstrip|]. split.
  - unfold handle_client_recv. rewrite Hne, Hstrip.
    destruct (username_taken EmptyString st) eqn:Htaken; [|reflexivity].
    apply username_taken_iff in Htaken as [H|H]; [contradiction | discriminate].
  - intros st2. eexists. split; [reflexivity|].
    simpl. apply DictFacts.get_set_same.
Qed.

Lemma whitespace_username_is_registered_witness :
  let blank := String (ascii_of_nat 32) (String (ascii_of_nat 9) newline) in
  all_space blank = true
  /\ handle_client_recv 4 ("127.0.0.1", 4004) Handshaking (Text blank)
       (shared Scenario.room)
     = (Checked EmptyString, shared Scenario.room).
Proof.
  split; [vm_compute; reflexivity|].
  refine (proj1 (proj2 (whitespace_username_is_registered 4 ("127.0.0.1", 4004)
            (String (ascii_of_nat 32) (String (ascii_of_nat 9) newline))
            (shared Scenario.room) eq_refl _ _))).
  - vm_compute. reflexivity.
  - vm_compute. intuition discriminate.
Defined.

(** ** Two handshakes at once *)

(** C1 fails on the code: the test of the username and the insertion are
    two separate [with self.client_lock] blocks. On the schedule [race]
    both connections end up registered as bob, and neither was sent the
    error event: each has only been written the greeting. *)
Theorem racing_handshakes_both_register :
  let final := run_schedule race (initial Scenario.tick) in
  clients (shared final)
  = [(1, mkInfo "bob" Scenario.addr1); (2, mkInfo "bob" Scenario.addr2)]
  /\ map t_pc (threads final) = [Inserted "bob"; Inserted "bob"]
  /\ inbox 1 (shared final) = [event (Scenario.tick 0) "Server" greeting "system"]
  /\ inbox 2 (shared final) = [event (Scenario.tick 1) "Server" greeting "system"]
  /\ ~ unique_usernames (shared final).
Proof.
  repeat split; try (vm_compute; reflexivity).
  intros H. vm_compute in H. inversion H as [|? ? Hnot _]. apply Hnot. now left.
Qed.

(** Run without interference, test and insertion keep usernames unique:
    the defect needs the interleaving. *)
Lemma handshake_alone_keeps_usernames_unique
    (conn : socket) (addr : address) (candidate : string) (st : server) :
  unique_usernames st ->
  Dict.contains conn (clients st) = false ->
  username_taken candidate st = false ->
  unique_usernames (exec (add_client conn candidate addr) st).
Proof.
  unfold unique_usernames. intros Huniq Hfresh Hfree. simpl.
  apply DictFacts.contains_false in Hfresh.
  rewrite (DictFacts.usernames_set_fresh _ _ _ Hfresh). simpl.
  apply NoDup_app; [assumption | repeat constructor; intros [] |].
  intros u Hin [E|[]]. subst u.
  assert (Htaken : username_taken candidate st = true)
    by (apply username_taken_iff; now left).
  congruence.
Qed.

(** ** A rejected handshake *)

(** C3 fails on the code: a fourth client asks for the name bob, which is
    taken. It is sent the error event and its socket is closed, no join is
    announced; but [finally] runs with [username] already assigned, so
    alice, carol and bob himself are told that bob has left the chat, while
    bob is still registered. *)
Theorem rejected_handshake_announces_departure :
  let before := run_schedule [Accept 4 ("127.0.0.1", 4004); Run 4] Scenario.room in
  let after := run_schedule [Recv 4 (Text "bob"); Run 4; Run 4] before in
  let left d n :=
    (inbox d (shared before)
     ++ [event (Scenario.tick n) "system" "bob has left the chat." "message"])%list in
  Scenario.pc_of 4 after = Some Closed
  /\ Dict.usernames (clients (shared after)) = ["alice"; "bob"; "carol"]
  /\ inbox 4 (shared after)
     = [event (Scenario.tick 9) "Server" greeting "system";
        event (Scenario.tick 10) "Server" "Username already taken. Disconnecting..."
          "error"]
  /\ inbox 1 (shared after) = left 1 11
  /\ inbox 2 (shared after) = left 2 12
  /\ inbox 3 (shared after) = left 3 13.
Proof. vm_compute. repeat split; reflexivity. Qed.

(** ** A whisper to a dead peer *)

(** C4 fails on the code for the whisper: [broadcast] catches a failed
    write and drops the peer ([broadcast_evicts_failed]), the whisper
    branch does not. With bob's connection broken, alice's whisper to bob
    raises in her own thread: bob stays registered, alice gets no reply,
    her loop ends, she is removed from the registry and her departure is
    announced. *)
Theorem whisper_to_dead_peer_ends_sender :
  let after := run_schedule [Break 2; Recv 1 (Text "/whisper bob hi")] Scenario.room in
  let final := run_schedule [Run 1; Run 1] after in
  Scenario.pc_of 1 after = Some (Finally "alice")
  /\ Dict.usernames (clients (shared after)) = ["alice"; "bob"; "carol"]
  /\ inbox 1 (shared after) = inbox 1 (shared Scenario.room)
  /\ Scenario.pc_of 1 final = Some Closed
  /\ Dict.contains 1 (clients (shared final)) = false
  /\ inbox 3 (shared final)
     = (inbox 3 (shared Scenario.room)
        ++ [event (Scenario.tick 11) "system" "alice has left the chat." "message"])%list.
Proof. vm_compute. repeat split; reflexivity. Qed.

(** ** The keys of the registry stay distinct *)

Lemma keeps_ret {A} (a : A) : keeps_clients (ret a).
Proof. intros st. reflexivity. Qed.

Lemma keeps_raise {A} : keeps_clients (@raise A).
Proof. intros st. reflexivity. Qed.

Lemma keeps_bind {A B} (m : M A) (k : A -> M B) :
  keeps_clients m -> (forall a, keeps_clients (k a)) -> keeps_clients (bind m k).
Proof.
  intros Hm Hk st. unfold bind. specialize (Hm st).
  destruct (m st) as [[a|] st1]; simpl in *; [|assumption].
  now rewrite Hk.
Qed.

Lemma keeps_send_event (c : socket) (sender message msg_type : string) :
  keeps_clients (send_event c sender message msg_type).
Proof.
  intros st. rewrite send_event_eq. now destruct (mem c (down st)).
Qed.

Lemma keeps_handle_command (conn : socket) (username command : string) :
  keeps_clients (handle_command conn username command).
Proof.
  unfold handle_command.
  destruct (PyStr.split command) as [|part0 parts]; [apply keeps_raise|].
  cbv zeta.
  destruct (String.eqb (PyStr.lower part0) "/help"); [apply keeps_send_event|].
  destruct (String.eqb (PyStr.lower part0) "/users").
  { apply keeps_bind; [intros st; reflexivity|]. intros online.
    apply keeps_send_event. }
  destruct (String.eqb (PyStr.lower part0) "/whisper"
            && Nat.leb 3 (List.length (part0 :: parts))).
  { apply keeps_bind; [intros st; reflexivity|]. intros [target|].
    - destruct (negb (Nat.eqb target conn)).
      + apply keeps_bind; [|intros _]; apply keeps_send_event.
      + apply keeps_send_event.
    - apply keeps_send_event. }
  destruct (String.eqb (PyStr.lower part0) "/time").
  { apply keeps_bind; [intros st; reflexivity|]. intros now.
    apply keeps_send_event. }
  destruct (String.eqb (PyStr.lower part0) "/quit"); apply keeps_send_event.
Qed.

Lemma broadcast_keys_distinct (message sender : string) (exclude : option socket)
    (msg_type : string) (st : server) :
  keys_distinct st ->
  keys_distinct (exec (broadcast message sender exclude msg_type) st).
Proof.
  intros ND.
  destruct (broadcast_spec message sender exclude msg_type st ND)
    as (st' & Hrun & _ & _ & _ & Hcl & _).
  unfold exec, keys_distinct. rewrite Hrun. simpl. rewrite Hcl.
  now apply DictFacts.keys_filter_nodup.
Qed.

Lemma close_keys_distinct (c : socket) (st : server) :
  keys_distinct st -> keys_distinct (exec (close c) st).
Proof.
  unfold keys_distinct. now destruct (close_marks_down c st) as (_ & -> & _).
Qed.

Lemma run_keys_distinct (conn : socket) (addr : address) (p : pc) (st : server) :
  keys_distinct st -> keys_distinct (snd (handle_client_run conn addr p st)).
Proof.
  intros ND. destruct p; simpl; try assumption.
  - pose proof (keeps_send_event conn "Server" greeting "system" st) as K.
    destruct (send_event conn "Server" greeting "system" st) as [[[]|] st1];
      simpl in *.
    + unfold keys_distinct. now rewrite K.
    + apply close_keys_distinct. unfold keys_distinct. now rewrite K.
  - unfold keys_distinct. simpl. now apply DictFacts.set_nodup.
  - now apply broadcast_keys_distinct.
  - match goal with
    | |- context [?m st] =>
        assert (K : clients (snd (m st)) = clients st)
          by (apply keeps_bind; [intros s; reflexivity|];
              intros online; apply keeps_send_event);
        destruct (m st) as [[[]|] st1]
    end; simpl in *; unfold keys_distinct; now rewrite K.
  - now destruct (running st).
  - destruct (PyStr.truthy username0).
    + simpl. unfold exec. rewrite (remove_client_eq conn st ND). simpl.
      unfold keys_distinct. simpl. now apply DictFacts.keys_filter_nodup.
    + simpl. now apply close_keys_distinct.
  - unfold exec, bind.
    rewrite (broadcast_returns _ _ _ _ st ND).
    apply close_keys_distinct. now apply broadcast_keys_distinct.
Qed.

Lemma recv_keys_distinct (conn : socket) (addr : address) (p : pc)
    (r : received) (st : server) :
  keys_distinct st -> keys_distinct (snd (handle_client_recv conn addr p r st)).
Proof.
  intros ND. destruct p; simpl; try assumption.
  - destruct r as [data| |]; try (simpl; now apply close_keys_distinct).
    destruct (PyStr.is_empty data); simpl.
    + unfold exec, bind. simpl. now do 2 apply close_keys_distinct.
    + destruct (username_taken (PyStr.strip data) st); simpl; [|assumption].
      unfold exec, bind.
      pose proof (keeps_send_event conn "Server"
                    "Username already taken. Disconnecting..." "error" st) as K.
      destruct (send_event conn "Server"
                  "Username already taken. Disconnecting..." "error" st)
        as [[[]|] st1]; simpl in *.
      * apply close_keys_distinct. unfold keys_distinct. now rewrite K.
      * unfold keys_distinct. now rewrite K.
  - destruct r as [data| |]; try assumption.
    destruct (PyStr.is_empty data); [assumption|].
    destruct (PyStr.startswith "/" (PyStr.strip data)).
    + pose proof (keeps_handle_command conn username0 (PyStr.strip data) st) as K.
      destruct (handle_command conn username0 (PyStr.strip data) st)
        as [[[]|] st1]; simpl in *; unfold keys_distinct; now rewrite K.
    + simpl. now apply broadcast_keys_distinct.
Qed.

Lemma update_thread_keeps (P : server -> Prop) (conn : socket)
    (f : thread -> server -> pc * server) (ts : list thread) (st : server) :
  (forall t s, P s -> P (snd (f t s))) ->
  P st -> P (snd (update_thread conn f ts st)).
Proof.
  intros Hf. induction ts as [|t r IH]; simpl; intros HP; [assumption|].
  destruct (Nat.eqb (t_conn t) conn).
  - specialize (Hf t st HP). now destruct (f t st).
  - specialize (IH HP). now destruct (update_thread conn f r st).
Qed.

Lemma step_keys_distinct (a : action) (sys : system) :
  keys_distinct (shared sys) -> keys_distinct (shared (step a sys)).
Proof.
  intros ND. destruct a as [conn addr|conn|conn r|conn]; simpl.
  - assumption.
  - pose proof (update_thread_keeps keys_distinct conn
                  (fun t => handle_client_run conn (t_addr t) (t_pc t))
                  (threads sys) (shared sys)
                  (fun t s => run_keys_distinct conn (t_addr t) (t_pc t) s) ND) as H.
    now destruct (update_thread conn _ (threads sys) (shared sys)).
  - pose proof (update_thread_keeps keys_distinct conn
                  (fun t => handle_client_recv conn (t_addr t) (t_pc t) r)
                  (threads sys) (shared sys)
                  (fun t s => recv_keys_distinct conn (t_addr t) (t_pc t) r s) ND) as H.
    now destruct (update_thread conn _ (threads sys) (shared sys)).
  - now apply close_keys_distinct.
Qed.

(** Whatever the schedule, the keys of [self.clients] are distinct: the
    hypothesis of the routing theorems holds in every state the server can
    reach. *)
Lemma reachable_keys_distinct (schedule : list action) (clk : nat -> datetime) :
  keys_distinct (shared (run_schedule schedule (initial clk))).
Proof.
  unfold run_schedule.
  assert (H : forall sys, keys_distinct (shared sys) ->
                          keys_distinct (shared (fold_left (fun s a => step a s) schedule sys))).
  { induction schedule as [|a r IH]; intros sys ND; simpl; [assumption|].
    apply IH. now apply step_keys_distinct. }
  apply H. constructor.
Qed.

(** * Further properties of the server *)

(** ** [broadcast] *)

(** [broadcast] never raises. It writes one event to every registered
    socket that is not the excluded one and accepts the write, nothing to
    any other socket, and it removes from the registry exactly the
    registered sockets, not excluded, whose write fails; the entries that
    stay keep their order. *)
Theorem broadcast_delivers_and_evicts
    (message sender : string) (exclude : option socket) (msg_type : string)
    (st : server) :
  keys_distinct st ->
  exists st',
    broadcast message sender exclude msg_type st = (Return tt, st')
    /\ clients st'
       = filter (fun kv => is_excluded (fst kv) exclude || negb (mem (fst kv) (down st)))
           (clients st)
    /\ forall d,
         if Dict.contains d (clients st) && negb (is_excluded d exclude)
            && negb (mem d (down st))
         then exists n,
             inbox d st'
             = (inbox d st ++ [event (clock st n) sender message msg_type])%list
         else inbox d st' = inbox d st.
Proof.
  intros ND.
  destruct (broadcast_spec message sender exclude msg_type st ND)
    as (st' & Hrun & _ & _ & _ & Hcl & Hin).
  exists st'. split; [exact Hrun|]. split; [|exact Hin].
  rewrite Hcl. apply filter_ext_in. intros [k v] Hkv. simpl.
  unfold fails.
  assert (Hk : mem k (Dict.keys (clients st)) = true).
  { apply mem_In. unfold Dict.keys. apply in_map_iff. now exists (k, v). }
  rewrite Hk. simpl.
  now destruct (is_excluded k exclude), (mem k (down st)).
Qed.

Lemma broadcast_delivers_and_evicts_witness :
  let st := exec (close 2) (shared Scenario.room) in
  keys_distinct st
  /\ exists st',
      broadcast "lunch?" "alice" (Some 1) "message" st = (Return tt, st')
      /\ Dict.usernames (clients st') = ["alice"; "carol"].
Proof.
  assert (ND : keys_distinct (exec (close 2) (shared Scenario.room))).
  { vm_compute. repeat constructor; simpl; intuition discriminate. }
  split; [exact ND|].
  destruct (broadcast_delivers_and_evicts "lunch?" "alice" (Some 1) "message"
              (exec (close 2) (shared Scenario.room)) ND)
    as (st' & Hrun & Hcl & _).
  exists st'. split; [exact Hrun|]. rewrite Hcl. vm_compute. reflexivity.
Defined.

(** ** A session under the empty username *)

(** When the thread of a session whose username is empty ends, [finally]
    skips the removal and the departure notice: the socket is closed, the
    registry and the wire are as they were, so the entry of the connection
    stays. The next [broadcast] that does not exclude this connection
    fails to write to it and removes the entry. *)
Theorem empty_username_entry_outlives_its_thread
    (conn : socket) (addr : address) (st : server) :
  keys_distinct st ->
  exists st',
    handle_client_run conn addr (Finally EmptyString) st = (Closed, st')
    /\ clients st' = clients st
    /\ wire st' = wire st
    /\ mem conn (down st') = true
    /\ forall message sender exclude msg_type,
         is_excluded conn exclude = false ->
         Dict.contains conn
           (clients (exec (broadcast message sender exclude msg_type) st'))
         = false.
Proof.
  intros ND. exists (exec (close conn) st).
  destruct (close_marks_down conn st) as (Hd & Hc & Hw).
  repeat split; try assumption.
  intros message sender exclude msg_type Hex.
  assert (ND' : keys_distinct (exec (close conn) st))
    by now apply close_keys_distinct.
  rewrite (broadcast_evicts_failed message sender exclude msg_type _ conn ND').
  rewrite Hex, Hd. simpl. apply andb_false_r.
Qed.

Lemma empty_username_entry_outlives_its_thread_witness :
  let st := exec (add_client 4 EmptyString ("127.0.0.1", 4004)) (shared Scenario.room) in
  keys_distinct st
  /\ exists st',
      handle_client_run 4 ("127.0.0.1", 4004) (Finally EmptyString) st = (Closed, st')
      /\ Dict.contains 4 (clients st') = true.
Proof.
  assert (ND : keys_distinct
                 (exec (add_client 4 EmptyString ("127.0.0.1", 4004))
                    (shared Scenario.room))).
  { vm_compute. repeat constructor; simpl; intuition discriminate. }
  split; [exact ND|].
  destruct (empty_username_entry_outlives_its_thread 4 ("127.0.0.1", 4004) _ ND)
    as (st' & Hrun & Hcl & _).
  exists st'. split; [exact Hrun|]. rewrite Hcl. vm_compute. reflexivity.
Defined.

(** ** Registering, looking up, removing *)

Lemma set_fresh (k : socket) (v : client_info) (d : Dict.t) :
  ~ In k (Dict.keys d) -> Dict.set k v d = (d ++ [(k, v)])%list.
Proof.
  induction d as [|[k' v'] r IH]; simpl; intros H; [reflexivity|].
  destruct (Nat.eqb_spec k k') as [->|N].
  - exfalso. apply H. now left.
  - f_equal. apply IH. intros Hin. apply H. now right.
Qed.

Lemma find_target_snoc (target_user : string) (d : Dict.t) (k : socket)
    (v : client_info) :
  find_target target_user (d ++ [(k, v)])%list
  = match find_target target_user d with
    | Some c => Some c
    | None => if String.eqb (username v) target_user then Some k else None
    end.
Proof.
  induction d as [|[k' v'] r IH]; simpl; [reflexivity|].
  now destruct (String.eqb (username v') target_user).
Qed.

Lemma without_snoc_fresh (k : socket) (v : client_info) (d : Dict.t) :
  ~ In k (Dict.keys d) -> Dict.without k (d ++ [(k, v)])%list = d.
Proof.
  intros H. unfold Dict.without. rewrite filter_app. simpl.
  rewrite Nat.eqb_refl. simpl. rewrite app_nil_r.
  now apply DictFacts.without_absent.
Qed.

(** A connection inserted under a name that passed the test is what the
    whisper lookup finds for that name; the lookup of every other name is
    as before; and removing the connection again gives back the registry
    as it was, where the name resolves to nothing. *)
Theorem registered_name_resolves_to_its_connection
    (conn : socket) (addr : address) (candidate : string) (st : server) :
  keys_distinct st ->
  Dict.contains conn (clients st) = false ->
  username_taken candidate st = false ->
  let st1 := exec (add_client conn candidate addr) st in
  let st2 := exec (remove_client conn) st1 in
  find_target candidate (clients st1) = Some conn
  /\ (forall other, other <> candidate ->
        find_target other (clients st1) = find_target other (clients st))
  /\ fst (get_online_users st1)
     = Return (Dict.usernames (clients st) ++ [candidate])%list
  /\ clients st2 = clients st
  /\ find_target candidate (clients st2) = None.
Proof.
  intros ND Hfresh Hfree st1 st2.
  apply DictFacts.contains_false in Hfresh.
  assert (Hnone : find_target candidate (clients st) = None).
  { apply find_target_none. intros Hin.
    assert (username_taken candidate st = true)
      by (apply username_taken_iff; now left).
    congruence. }
  assert (H1 : clients st1 = (clients st ++ [(conn, mkInfo candidate addr)])%list).
  { subst st1. unfold exec, add_client. simpl. now apply set_fresh. }
  assert (H2 : clients st2 = clients st).
  { subst st2. unfold exec.
    rewrite remove_client_eq.
    - cbn [snd clients set_clients]. rewrite H1. now apply without_snoc_fresh.
    - unfold keys_distinct. subst st1. unfold exec, add_client. simpl.
      now apply DictFacts.set_nodup. }
  split; [|split; [|split; [|split]]].
  - rewrite H1, find_target_snoc, Hnone. simpl. now rewrite String.eqb_refl.
  - intros other Hne. rewrite H1, find_target_snoc.
    destruct (find_target other (clients st)); [reflexivity|]. simpl.
    destruct (String.eqb_spec candidate other); [congruence | reflexivity].
  - unfold get_online_users. cbn [fst]. rewrite H1.
    unfold Dict.usernames, Dict.values. now rewrite !map_app.
  - exact H2.
  - now rewrite H2.
Qed.

Lemma registered_name_resolves_to_its_connection_witness :
  let st1 := exec (add_client 4 "dave" ("127.0.0.1", 4004)) (shared Scenario.room) in
  keys_distinct (shared Scenario.room)
  /\ username_taken "dave" (shared Scenario.room) = false
  /\ find_target "dave" (clients st1) = Some 4.
Proof.
  assert (ND : keys_distinct (shared Scenario.room)).
  { vm_compute. repeat constructor; simpl; intuition discriminate. }
  assert (Hfresh : Dict.contains 4 (clients (shared Scenario.room)) = false)
    by (vm_compute; reflexivity).
  assert (Hfree : username_taken "dave" (shared Scenario.room) = false)
    by (vm_compute; reflexivity).
  split; [exact ND|]. split; [exact Hfree|].
  exact (proj1 (registered_name_resolves_to_its_connection 4 ("127.0.0.1", 4004)
                  "dave" (shared Scenario.room) ND Hfresh Hfree)).
Defined.

(** ** Commands *)

(** A command that is none of [/help], [/users], [/time], [/quit], and not
    a [/whisper] with a user and a text, is answered with the error event
    "Unknown command", written to the sender only; this is what a
    [/whisper] with fewer than two words after it gets. *)
Theorem unrecognised_command_is_answered_with_error
    (conn : socket) (username command part0 : string) (rest : list string)
    (st : server) :
  PyStr.split command = part0 :: rest ->
  PyStr.lower part0 <> "/help" ->
  PyStr.lower part0 <> "/users" ->
  PyStr.lower part0 <> "/time" ->
  PyStr.lower part0 <> "/quit" ->
  (PyStr.lower part0 = "/whisper" -> List.length rest < 2) ->
  mem conn (down st) = false ->
  exists st',
    handle_command conn username command st = (Return tt, st')
    /\ clients st' = clients st
    /\ wire st'
       = (wire st
          ++ [(conn, event (clock st (reads st)) "Server"
                       "Unknown command. Type /help for available commands."
                       "error")])%list.
Proof.
  intros Hsplit Hhelp Husers Htime Hquit Hwhisper Hconn.
  unfold handle_command. rewrite Hsplit.
  apply String.eqb_neq in Hhelp, Husers, Htime, Hquit.
  cbv zeta. rewrite Hhelp, Husers, Htime, Hquit.
  assert (Hw : String.eqb (PyStr.lower part0) "/whisper"
               && Nat.leb 3 (List.length (part0 :: rest)) = false).
  { destruct (String.eqb_spec (PyStr.lower part0) "/whisper") as [E|N];
      [|reflexivity].
    specialize (Hwhisper E). simpl.
    destruct rest as [|a [|b r]]; simpl in *; try reflexivity.
    exfalso. apply Nat.lt_irrefl with 2.
    eapply Nat.le_lt_trans; [|exact Hwhisper].
    apply le_n_S, le_n_S, Nat.le_0_l. }
  rewrite Hw. rewrite send_event_eq, Hconn.
  eexists. split; [reflexivity|]. split; reflexivity.
Qed.

Lemma unrecognised_command_is_answered_with_error_witness :
  PyStr.split "/Whisper bob" = ["/Whisper"; "bob"]
  /\ exists st',
      handle_command 1 "alice" "/Whisper bob" (shared Scenario.room) = (Return tt, st')
      /\ clients st' = clients (shared Scenario.room)
      /\ wire st'
         = (wire (shared Scenario.room)
            ++ [(1, event (clock (shared Scenario.room) (reads (shared Scenario.room)))
                      "Server" "Unknown command. Type /help for available commands."
                      "error")])%list.
Proof.
  assert (Hsplit : PyStr.split "/Whisper bob" = ["/Whisper"; "bob"])
    by (vm_compute; reflexivity).
  assert (Hup : mem 1 (down (shared Scenario.room)) = false)
    by (vm_compute; reflexivity).
  split; [exact Hsplit|].
  assert (H1 : PyStr.lower "/Whisper" <> "/help") by (vm_compute; discriminate).
  assert (H2 : PyStr.lower "/Whisper" <> "/users") by (vm_compute; discriminate).
  assert (H3 : PyStr.lower "/Whisper" <> "/time") by (vm_compute; discriminate).
  assert (H4 : PyStr.lower "/Whisper" <> "/quit") by (vm_compute; discriminate).
  assert (H5 : PyStr.lower "/Whisper" = "/whisper" -> List.length ["bob"] < 2)
    by (intros _; apply Nat.lt_succ_diag_r).
  exact (unrecognised_command_is_answered_with_error 1 "alice" "/Whisper bob"
           "/Whisper" ["bob"] (shared Scenario.room) Hsplit H1 H2 H3 H4 H5 Hup).
Defined.

Lemma split_from_word (word s : string) :
  PyStr.is_empty word = false -> PyStr.split_from word s <> [].
Proof.
  revert word. induction s as [|a r IH]; intros word Hw; simpl.
  - now rewrite Hw.
  - destruct (PyStr.isspace a).
    + now rewrite Hw.
    + apply IH. now destruct word.
Qed.

(** A text that starts with a slash has a first word. *)
Lemma split_slash (s : string) :
  PyStr.startswith "/" s = true -> PyStr.split s <> [].
Proof.
  destruct s as [|a r]; [intros H; discriminate H|].
  unfold PyStr.startswith. cbn [String.prefix].
  destruct (Ascii.ascii_dec "/" a) as [<-|N]; [|intros H; discriminate H].
  intros _. unfold PyStr.split.
  change (PyStr.split_from EmptyString (String "/" r))
    with (PyStr.split_from "/" r).
  now apply split_from_word.
Qed.

Lemma send_event_working (c : socket) (sender message msg_type : string)
    (st : server) :
  down st = [] ->
  exists st',
    send_event c sender message msg_type st = (Return tt, st')
    /\ clients st' = clients st /\ down st' = []
    /\ forall d, d <> c -> inbox d st' = inbox d st.
Proof.
  intros Hdown. rewrite send_event_eq, Hdown. simpl mem. cbv iota.
  eexists. split; [reflexivity|]. split; [reflexivity|]. split; [exact Hdown|].
  intros d Hd. erewrite inbox_snoc by reflexivity.
  destruct (Nat.eqb_spec c d); [congruence | reflexivity].
Qed.

(** While every socket accepts writes, no command ends the session of its
    sender: whatever follows the slash, the thread is back at the top of
    its loop, the registry is unchanged, and nothing was written to any
    socket other than the sender's and the one the second word resolves
    to as a username. *)
Theorem command_keeps_session_on_working_sockets
    (conn : socket) (addr : address) (username data : string) (st : server) :
  PyStr.is_empty data = false ->
  PyStr.startswith "/" (PyStr.strip data) = true ->
  down st = [] ->
  exists st',
    handle_client_recv conn addr (Receiving username) (Text data) st
    = (LoopTop username, st')
    /\ clients st' = clients st
    /\ forall d,
         d <> conn ->
         find_target (nth 1 (PyStr.split (PyStr.strip data)) EmptyString) (clients st)
         <> Some d ->
         inbox d st' = inbox d st.
Proof.
  intros Hne Hslash Hdown.
  unfold handle_client_recv. rewrite Hne, Hslash.
  pose proof (split_slash _ Hslash) as Hparts.
  assert (Hcmd : exists st',
             handle_command conn username (PyStr.strip data) st = (Return tt, st')
             /\ clients st' = clients st
             /\ forall d,
                  d <> conn ->
                  find_target (nth 1 (PyStr.split (PyStr.strip data)) EmptyString)
                    (clients st) <> Some d ->
                  inbox d st' = inbox d st).
  { unfold handle_command.
    destruct (PyStr.split (PyStr.strip data)) as [|part0 parts]; [congruence|].
    cbv zeta.
    assert (Hone : forall sender message msg_type,
               exists st',
                 send_event conn sender message msg_type st = (Return tt, st')
                 /\ clients st' = clients st
                 /\ forall d,
                      d <> conn ->
                      find_target (nth 1 (part0 :: parts) EmptyString) (clients st)
                      <> Some d ->
                      inbox d st' = inbox d st).
    { intros sender message msg_type.
      destruct (send_event_working conn sender message msg_type st Hdown)
        as (st' & Hrun & Hcl & _ & Hin).
      exists st'. split; [exact Hrun|]. split; [exact Hcl|].
      intros d Hd _. now apply Hin. }
    destruct (String.eqb (PyStr.lower part0) "/help"); [apply Hone|].
    destruct (String.eqb (PyStr.lower part0) "/users").
    { unfold bind, get_online_users. apply Hone. }
    destruct (String.eqb (PyStr.lower part0) "/whisper"
              && Nat.leb 3 (List.length (part0 :: parts))).
    { unfold bind at 1. unfold lookup_target. cbv beta iota.
      destruct (find_target (nth 1 (part0 :: parts) EmptyString) (clients st))
        as [target|]; [|apply Hone].
      destruct (Nat.eqb target conn); cbn [negb]; [apply Hone|].
      unfold bind.
      destruct (send_event_working target ("[Whisper from " ++ username ++ "]")
                  (PyStr.join " " (skipn 2 (part0 :: parts))) "whisper" st Hdown)
        as (st1 & Hrun1 & Hcl1 & Hdown1 & Hin1).
      rewrite Hrun1.
      destruct (send_event_working conn "Server"
                  ("Whisper sent to " ++ nth 1 (part0 :: parts) EmptyString)
                  "system" st1 Hdown1)
        as (st2 & Hrun2 & Hcl2 & _ & Hin2).
      exists st2. split; [exact Hrun2|]. split; [congruence|].
      intros d Hd Ht. rewrite (Hin2 d Hd). apply Hin1. congruence. }
    destruct (String.eqb (PyStr.lower part0) "/time").
    { unfold bind, current_time.
      destruct (send_event_working conn "Server"
                  ("Server time: " ++ Clock.ymd_hms (clock st (reads st))) "system"
                  (set_reads (S (reads st)) st) Hdown)
        as (st' & Hrun & Hcl & _ & Hin).
      exists st'. split; [exact Hrun|]. split; [exact Hcl|].
      intros d Hd _. now apply Hin. }
    destruct (String.eqb (PyStr.lower part0) "/quit"); apply Hone. }
  destruct Hcmd as (st' & Hrun & Hcl & Hin).
  exists st'. rewrite Hrun. now repeat split.
Qed.

Lemma command_keeps_session_on_working_sockets_witness :
  down (shared Scenario.room) = []
  /\ exists st',
      handle_client_recv 1 Scenario.addr1 (Receiving "alice") (Text "/TIME please")
        (shared Scenario.room)
      = (LoopTop "alice", st')
      /\ clients st' = clients (shared Scenario.room).
Proof.
  assert (Hdown : down (shared Scenario.room) = []) by (vm_compute; reflexivity).
  assert (Hslash : PyStr.startswith "/" (PyStr.strip "/TIME please") = true)
    by (vm_compute; reflexivity).
  split; [exact Hdown|].
  destruct (command_keeps_session_on_working_sockets 1 Scenario.addr1 "alice"
              "/TIME please" (shared Scenario.room) eq_refl Hslash Hdown)
    as (st' & Hrun & Hcl & _).
  exists st'. split; [exact Hrun | exact Hcl].
Defined.

(** ** Joining *)

(** The three steps of a successful join, run one after the other on a
    connection that is new to the registry and accepts writes: the
    connection is registered last in the dict; every session registered
    before, if its socket accepts the write, is written one join notice
    (sender "system", kind "message") and the newcomer none; the sessions
    whose write fails are dropped; the newcomer is then written one
    welcome event that lists the usernames left in the registry, its own
    included. *)
Theorem join_announces_then_welcomes
    (conn : socket) (addr : address) (username : string) (st : server) :
  keys_distinct st ->
  Dict.contains conn (clients st) = false ->
  mem conn (down st) = false ->
  exists st1 st2 st3,
    handle_client_run conn addr (Checked username) st = (Inserted username, st1)
    /\ handle_client_run conn addr (Inserted username) st1 = (Joined username, st2)
    /\ handle_client_run conn addr (Joined username) st2 = (LoopTop username, st3)
    /\ clients st3
       = (filter (fun kv => negb (mem (fst kv) (down st))) (clients st)
          ++ [(conn, mkInfo username addr)])%list
    /\ (exists n,
          inbox conn st3
          = (inbox conn st
             ++ [event (clock st n) "Server"
                   (welcome_text username (Dict.usernames (clients st3)))
                   "welcome"])%list)
    /\ forall d,
         d <> conn ->
         if Dict.contains d (clients st) && negb (mem d (down st))
         then exists n,
             inbox d st3
             = (inbox d st
                ++ [event (clock st n) "system" (username ++ " has joined the chat!")
                      "message"])%list
         else inbox d st3 = inbox d st.
Proof.
  intros ND Hfresh Hup.
  apply DictFacts.contains_false in Hfresh.
  set (st1 := set_clients (Dict.set conn (mkInfo username addr) (clients st)) st).
  assert (Hcl1 : clients st1 = (clients st ++ [(conn, mkInfo username addr)])%list)
    by (unfold st1; cbn [clients set_clients]; now apply set_fresh).
  assert (ND1 : keys_distinct st1).
  { unfold keys_distinct, st1. cbn [clients set_clients].
    now apply DictFacts.set_nodup. }
  destruct (broadcast_spec (username ++ " has joined the chat!") "system"
              (Some conn) "message" st1 ND1)
    as (st2 & Hrun2 & Hd2 & _ & Hc2 & Hcl2 & Hin2).
  change (down st1) with (down st) in *.
  change (clock st1) with (clock st) in *.
  assert (Hup2 : mem conn (down st2) = false) by now rewrite Hd2.
  set (st3 := set_wire
                (wire st2
                 ++ [(conn, event (clock st2 (reads st2)) "Server"
                              (welcome_text username (Dict.usernames (clients st2)))
                              "welcome")])%list
                (set_reads (S (reads st2)) st2)).
  exists st1, st2, st3.
  assert (Hkeep : clients st2
                  = (filter (fun kv => negb (mem (fst kv) (down st))) (clients st)
                     ++ [(conn, mkInfo username addr)])%list).
  { rewrite Hcl2, Hcl1, filter_app. f_equal.
    - apply filter_ext_in. intros [k v] Hkv. cbn [fst]. unfold fails.
      assert (Hk : In k (Dict.keys (clients st)))
        by (unfold Dict.keys; apply in_map_iff; now exists (k, v)).
      assert (Hmem : mem k (Dict.keys (clients st ++ [(conn, mkInfo username addr)])%list)
                     = true).
      { apply mem_In. unfold Dict.keys. rewrite map_app. apply in_or_app. now left. }
      rewrite Hmem. cbn [is_excluded andb].
      destruct (Nat.eqb_spec k conn) as [->|N]; [contradiction|reflexivity].
    - cbn [filter fst]. unfold fails. cbn [is_excluded].
      rewrite Nat.eqb_refl. cbn [negb andb]. now rewrite andb_false_r. }
  split; [reflexivity|]. split.
  { unfold handle_client_run, exec. now rewrite Hrun2. }
  split.
  { unfold handle_client_run, bind, get_online_users.
    rewrite send_event_eq, Hup2. reflexivity. }
  split; [exact Hkeep|]. split.
  - exists (reads st2).
    unfold st3. erewrite inbox_snoc by reflexivity. rewrite Nat.eqb_refl.
    specialize (Hin2 conn). unfold reached in Hin2. cbn [is_excluded] in Hin2.
    rewrite Nat.eqb_refl in Hin2. cbn [negb] in Hin2.
    rewrite andb_false_r in Hin2. cbn [andb] in Hin2.
    rewrite Hin2, Hc2. reflexivity.
  - intros d Hd.
    assert (H3 : inbox d st3 = inbox d st2).
    { unfold st3. erewrite inbox_snoc by reflexivity.
      destruct (Nat.eqb_spec conn d); [congruence | reflexivity]. }
    rewrite H3. specialize (Hin2 d). unfold reached in Hin2.
    cbn [is_excluded] in Hin2.
    assert (Hmem : mem d (Dict.keys (clients st1)) = Dict.contains d (clients st)).
    { rewrite Hcl1. unfold mem, Dict.contains, Dict.keys. rewrite map_app, existsb_app.
      cbn [map existsb fst].
      destruct (Nat.eqb_spec d conn); [congruence|]. now rewrite !orb_false_r. }
    rewrite Hmem in Hin2.
    destruct (Nat.eqb_spec d conn); [congruence|]. cbn [negb] in Hin2.
    rewrite andb_true_r in Hin2. exact Hin2.
Qed.

Lemma join_announces_then_welcomes_witness :
  keys_distinct (shared Scenario.room)
  /\ exists st1 st2 st3,
      handle_client_run 4 ("127.0.0.1", 4004) (Checked "dave") (shared Scenario.room)
      = (Inserted "dave", st1)
      /\ handle_client_run 4 ("127.0.0.1", 4004) (Inserted "dave") st1
         = (Joined "dave", st2)
      /\ handle_client_run 4 ("127.0.0.1", 4004) (Joined "dave") st2
         = (LoopTop "dave", st3)
      /\ Dict.usernames (clients st3) = ["alice"; "bob"; "carol"; "dave"].
Proof.
  assert (ND : keys_distinct (shared Scenario.room)).
  { vm_compute. repeat constructor; simpl; intuition discriminate. }
  assert (Hfresh : Dict.contains 4 (clients (shared Scenario.room)) = false)
    by (vm_compute; reflexivity).
  assert (Hup : mem 4 (down (shared Scenario.room)) = false)
    by (vm_compute; reflexivity).
  split; [exact ND|].
  destruct (join_announces_then_welcomes 4 ("127.0.0.1", 4004) "dave"
              (shared Scenario.room) ND Hfresh Hup)
    as (st1 & st2 & st3 & H1 & H2 & H3 & Hcl & _).
  exists st1, st2, st3. repeat split; try assumption.
  rewrite Hcl. vm_compute. reflexivity.
Defined.

(** * Properties of the wire format and of the client *)

(** ** Decoding what [json.dumps] wrote *)

Module JsonFacts.
Import PyStr Json JsonLoads.

Lemma append_assoc (a b c : string) : (a ++ b) ++ c = a ++ (b ++ c).
Proof. induction a as [|x a IH]; simpl; [reflexivity | now rewrite IH]. Qed.

Lemma length_append (a b : string) :
  String.length (a ++ b) = String.length a + String.length b.
Proof. induction a as [|x a IH]; simpl; [reflexivity | now rewrite IH]. Qed.

(** One escaped character is read back as the character. *)
Lemma scan_escape_char (a : ascii) (tail : string) :
  scan_string (escape_char a ++ tail) = prepend a (scan_string tail).
Proof.
  destruct a as [[] [] [] [] [] [] [] []]; reflexivity.
Qed.

(** An escaped text followed by the closing quote is read back whole. *)
Lemma scan_escape (s rest : string) :
  scan_string (escape s ++ String dquote rest) = Scan s rest.
Proof.
  induction s as [|a r IH]; [reflexivity|].
  cbn [escape]. rewrite append_assoc, scan_escape_char, IH. reflexivity.
Qed.

Lemma member_text (k v tail : string) :
  member (k, v) ++ tail
  = String dquote
      (escape k
       ++ String dquote
            (String ":" (String " "
               (String dquote (escape v ++ String dquote tail))))).
Proof.
  unfold member, quoted. cbn [fst snd].
  cbn [append]. rewrite !append_assoc. cbn [append].
  rewrite !append_assoc. reflexivity.
Qed.

(** Reading one member: the pair goes into the dict, and what follows
    decides how the object goes on. *)
Lemma members_member (fuel : nat) (acc : list (string * string))
    (k v tail : string) :
  members (S fuel) acc (member (k, v) ++ tail)
  = match skip_ws tail with
    | EmptyString => DecodeError
    | String d r5 =>
        if Nat.eqb (ord d) 44 then members fuel (dict_set k v acc) (skip_ws r5)
        else if Nat.eqb (ord d) 125 then finish (dict_set k v acc) r5
        else DecodeError
    end.
Proof.
  rewrite member_text. cbn [members].
  change (Ascii.eqb dquote dquote) with true. cbn [negb].
  rewrite scan_escape.
  change (skip_ws (String ":" ?x)) with (String ":" x).
  cbv beta iota.
  change (Nat.eqb (ord ":") 58) with true. cbn [negb].
  change (skip_ws (String " " (String dquote ?x))) with (String dquote x).
  cbv beta iota.
  change (Ascii.eqb dquote dquote) with true. cbv beta iota.
  rewrite scan_escape. reflexivity.
Qed.

Lemma skip_ws_member (k v tail : string) :
  skip_ws (member (k, v) ++ tail) = member (k, v) ++ tail.
Proof. rewrite member_text. reflexivity. Qed.

Lemma skip_ws_join (kv : string * string) (r : list (string * string))
    (tail : string) :
  skip_ws (join ", " (map member (kv :: r)) ++ tail)
  = join ", " (map member (kv :: r)) ++ tail.
Proof.
  destruct kv as [k v]. cbn [map join].
  destruct (map member r) as [|m ms].
  - apply skip_ws_member.
  - rewrite append_assoc. apply skip_ws_member.
Qed.

(** Reading the members that [dumps] wrote, up to the closing brace. *)
Lemma members_join (d : list (string * string)) :
  forall fuel acc kv tail,
    List.length d < fuel ->
    members fuel acc (join ", " (map member (kv :: d)) ++ String "}" tail)
    = finish (collect (kv :: d) acc) tail.
Proof.
  induction d as [|kv2 r IH]; intros fuel acc [k v] tail Hfuel.
  - destruct fuel as [|fuel]; [inversion Hfuel|].
    cbn [map join]. rewrite members_member. reflexivity.
  - destruct fuel as [|fuel]; [inversion Hfuel|].
    cbn [map]. change (join ", " (member (k, v) :: member kv2 :: map member r))
      with (member (k, v) ++ ", " ++ join ", " (map member (kv2 :: r))).
    rewrite !append_assoc. rewrite members_member.
    cbn [append skip_ws]. change (is_ws ",") with false. cbv iota.
    change (Nat.eqb (ord ",") 44) with true. cbv iota.
    change (skip_ws (String " " ?x)) with (skip_ws x).
    rewrite skip_ws_join. rewrite IH; [reflexivity|].
    cbn [List.length] in Hfuel. now apply Nat.succ_lt_mono.
Qed.

Lemma member_length (kv : string * string) : 1 <= String.length (member kv).
Proof. destruct kv. unfold member, quoted. simpl. apply le_n_S, Nat.le_0_l. Qed.

Lemma join_length (d : list (string * string)) :
  List.length d <= String.length (join ", " (map member d)).
Proof.
  induction d as [|kv r IH]; [apply Nat.le_0_l|].
  cbn [map]. destruct r as [|kv2 r].
  - cbn [map join List.length]. apply member_length.
  - change (join ", " (member kv :: map member (kv2 :: r)))
      with (member kv ++ ", " ++ join ", " (map member (kv2 :: r))).
    rewrite !length_append. pose proof (member_length kv).
    cbn [List.length] in *. lia.
Qed.

Lemma dict_set_fresh (k v : string) (acc : list (string * string)) :
  ~ In k (map fst acc) -> dict_set k v acc = (acc ++ [(k, v)])%list.
Proof.
  induction acc as [|[k' v'] r IH]; simpl; intros H; [reflexivity|].
  destruct (String.eqb_spec k k') as [->|N].
  - exfalso. apply H. now left.
  - f_equal. apply IH. intros Hin. apply H. now right.
Qed.

Lemma collect_distinct (d : list (string * string)) :
  forall acc, NoDup (map fst (acc ++ d)) -> collect d acc = (acc ++ d)%list.
Proof.
  induction d as [|[k v] r IH]; intros acc ND; simpl.
  - now rewrite app_nil_r.
  - unfold collect in *. simpl.
    assert (Hfresh : ~ In k (map fst acc)).
    { rewrite map_app in ND. simpl in ND.
      apply NoDup_remove_2 in ND. intros Hin. apply ND.
      apply in_or_app. now left. }
    rewrite (dict_set_fresh _ _ _ Hfresh).
    rewrite IH; rewrite <- app_assoc; [reflexivity | exact ND].
Qed.

End JsonFacts.

Module WireFacts.
Import PyStr Json JsonLoads JsonFacts.

Lemma append_nil_r (s : string) : s ++ EmptyString = s.
Proof. induction s as [|a r IH]; simpl; [reflexivity | now rewrite IH]. Qed.

Lemma join_head (kv : string * string) (r : list (string * string))
    (tail : string) :
  exists x, join ", " (map member (kv :: r)) ++ tail = String dquote x.
Proof.
  destruct kv as [k v]. cbn [map join].
  destruct (map member r) as [|m ms].
  - rewrite member_text. eexists. reflexivity.
  - rewrite append_assoc, member_text. eexists. reflexivity.
Qed.

(** [loads] on the text of a dict with at least one member, followed by
    anything: the members are read, and what follows decides. *)
Lemma loads_dumps_then (kv : string * string) (r : list (string * string))
    (tail : string) :
  loads (dumps (kv :: r) ++ tail) = finish (collect (kv :: r) []) tail.
Proof.
  unfold dumps.
  assert (Htext : "{" ++ join ", " (map member (kv :: r)) ++ "}" ++ tail
                  = String "{" (join ", " (map member (kv :: r)) ++ String "}" tail))
    by reflexivity.
  rewrite !append_assoc. cbn [append] in *.
  unfold loads.
  change (skip_ws (String "{" ?x)) with (String "{" x). cbv beta iota.
  change (Nat.eqb (ord "{") 123) with true. cbv iota.
  rewrite skip_ws_join.
  destruct (join_head kv r (String "}" tail)) as (x & Hx).
  rewrite Hx. change (Nat.eqb (ord dquote) 125) with false. cbv iota.
  rewrite <- Hx. apply members_join.
  cbn [String.length]. rewrite length_append.
  pose proof (join_length (kv :: r)) as Hlen. cbn [List.length] in Hlen. lia.
Qed.

(** Round trip of the codec on any dict with distinct keys. *)
Lemma loads_dumps (d : list (string * string)) :
  NoDup (map fst d) -> loads (dumps d) = Decoded d.
Proof.
  intros ND. destruct d as [|kv r]; [reflexivity|].
  rewrite <- (append_nil_r (dumps (kv :: r))), loads_dumps_then.
  unfold finish. cbn [skip_ws]. f_equal.
  now apply (collect_distinct (kv :: r) []).
Qed.

End WireFacts.

(** What the server encodes, the client decodes: the text that
    [encode_message] returns is read by [json.loads] as a dict with
    exactly the four keys timestamp, sender, message and type, holding the
    server's time of day and the three arguments as they were passed,
    whatever characters they contain. *)
Theorem encoded_event_is_decoded_back
    (sender message msg_type : string) (st : server) :
  exists data,
    fst (encode_message sender message msg_type st) = Return data
    /\ JsonLoads.loads data
       = JsonLoads.Decoded
           [("timestamp", Clock.hms (clock st (reads st)));
            ("sender", sender); ("message", message); ("type", msg_type)].
Proof.
  exists (event (clock st (reads st)) sender message msg_type).
  split; [reflexivity|].
  unfold event, message_data. apply WireFacts.loads_dumps.
  cbn [map fst]. repeat constructor; simpl; intuition discriminate.
Qed.

(** The line the client prints for an event of the server: it shows the
    server's timestamp, not the client's clock, in the colour of the kind;
    the sender is left out when it is "Server" and the kind is not
    whisper; and the loop goes on. *)
Theorem client_displays_server_event
    (local_time : string) (now : datetime) (sender message msg_type : string) :
  Client.receive_messages_turn local_time
    (Text (event now sender message msg_type))
  = Client.Printed
      (if negb (String.eqb msg_type "whisper") && String.eqb sender "Server"
       then Client.color msg_type ++ "[" ++ Clock.hms now ++ "] "
            ++ message ++ Client.reset
       else Client.color msg_type ++ "[" ++ Clock.hms now ++ "] "
            ++ sender ++ ": " ++ message ++ Client.reset)
      true.
Proof.
  unfold Client.receive_messages_turn.
  change (PyStr.is_empty (event now sender message msg_type)) with false.
  cbv iota.
  unfold event, message_data. rewrite WireFacts.loads_dumps.
  - unfold Client.display_message.
    cbn [JsonLoads.dict_get String.eqb Ascii.eqb Bool.eqb andb].
    destruct (String.eqb msg_type "whisper"); [reflexivity|].
    destruct (String.eqb sender "Server"); reflexivity.
  - cbn [map fst]. repeat constructor; simpl; intuition discriminate.
Qed.

(** Two events that arrive in one [recv] are both lost: the text of one
    event followed by the text of another is no JSON document, the client
    prints "Received invalid data" once and goes on. *)
Theorem client_drops_events_received_together
    (local_time : string) (now1 now2 : datetime)
    (sender1 message1 type1 sender2 message2 type2 : string) :
  Client.receive_messages_turn local_time
    (Text (event now1 sender1 message1 type1 ++ event now2 sender2 message2 type2))
  = Client.Printed ("[" ++ local_time ++ "] Received invalid data") true.
Proof.
  unfold Client.receive_messages_turn.
  change (PyStr.is_empty (event now1 sender1 message1 type1
                          ++ event now2 sender2 message2 type2)) with false.
  cbv iota.
  unfold event at 1. unfold message_data at 1.
  rewrite WireFacts.loads_dumps_then. reflexivity.
Qed.

(** ** The bytes on the wire *)

Module AsciiFacts.
Import PyStr Json.

Lemma all_printable_app (a b : string) :
  all_printable (a ++ b) = all_printable a && all_printable b.
Proof.
  induction a as [|x a IH]; simpl; [reflexivity|].
  now rewrite IH, andb_assoc.
Qed.

Lemma escape_char_printable (a : ascii) : all_printable (escape_char a) = true.
Proof. destruct a as [[] [] [] [] [] [] [] []]; reflexivity. Qed.

Lemma escape_printable (s : string) : all_printable (escape s) = true.
Proof.
  induction s as [|a r IH]; [reflexivity|].
  cbn [escape]. now rewrite all_printable_app, escape_char_printable, IH.
Qed.

Lemma member_printable (kv : string * string) : all_printable (member kv) = true.
Proof.
  unfold member, quoted. cbn [all_printable append].
  rewrite !all_printable_app. cbn [all_printable append].
  rewrite !all_printable_app, !escape_printable. reflexivity.
Qed.

Lemma join_printable (d : list (string * string)) :
  all_printable (join ", " (map member d)) = true.
Proof.
  induction d as [|kv r IH]; [reflexivity|].
  cbn [map]. destruct r as [|kv2 r].
  - apply member_printable.
  - change (join ", " (member kv :: map member (kv2 :: r)))
      with (member kv ++ ", " ++ join ", " (map member (kv2 :: r))).
    rewrite !all_printable_app, member_printable, IH. reflexivity.
Qed.

Lemma dumps_printable (d : list (string * string)) :
  all_printable (dumps d) = true.
Proof.
  unfold dumps. rewrite !all_printable_app, join_printable. reflexivity.
Qed.

End AsciiFacts.

(** Whatever the sender name, the text and the kind contain, line breaks
    and control characters included, the bytes of an event are printable
    ASCII characters only: [json.dumps] escapes everything else. *)
Theorem event_bytes_are_printable_ascii
    (sender message msg_type : string) (st : server) :
  exists data,
    fst (encode_message sender message msg_type st) = Return data
    /\ all_printable data = true.
Proof.
  exists (event (clock st (reads st)) sender message msg_type).
  split; [reflexivity | apply AsciiFacts.dumps_printable].
Qed.

(** * Shutdown, and the other ways a connection ends *)

(** ** [shutdown] *)

Lemma close_all (ks : list socket) :
  forall st,
    exists st',
      for_each ks (fun conn => try_except (close conn) (ret tt)) st = (Return tt, st')
      /\ clients st' = clients st /\ wire st' = wire st
      /\ running st' = running st
      /\ forall d, mem d (down st') = mem d ks || mem d (down st).
Proof.
  induction ks as [|k r IH]; intros st.
  - exists st. now repeat split.
  - cbn [for_each]. unfold bind, try_except at 1.
    change (close k st) with (Return tt, exec (close k) st). cbv iota beta.
    destruct (IH (exec (close k) st)) as (st' & Hrun & Hc & Hw & Hr & Hd).
    exists st'. split; [exact Hrun|].
    destruct (close_marks_down k st) as (Kd & Kc & Kw).
    split; [congruence|]. split; [congruence|]. split.
    { rewrite Hr. unfold exec, close. simpl. now destruct (mem k (down st)). }
    intros d. rewrite Hd, mem_cons.
    unfold exec, close. cbn [snd].
    destruct (mem k (down st)) eqn:Hk.
    + destruct (Nat.eqb_spec d k) as [->|N]; cbn [orb]; [|reflexivity].
      rewrite Hk. now rewrite orb_true_r.
    + cbn [down set_down]. rewrite mem_cons.
      now destruct (Nat.eqb d k), (mem d r).
Qed.



(** [shutdown] never raises. It clears the flag and the registry; every
    registered session whose socket accepts the write is written one last
    error-kind event from "Server", nobody else anything; and afterwards
    no socket that was registered can be written to. *)
Theorem shutdown_notifies_and_empties (st : server) :
  keys_distinct st ->
  exists st',
    shutdown st = (Return tt, st')
    /\ clients st' = [] /\ running st' = false
    /\ (forall d,
          if Dict.contains d (clients st) && negb (mem d (down st))
          then exists n,
              inbox d st'
              = (inbox d st ++ [event (clock st n) "Server" farewell "error"])%list
          else inbox d st' = inbox d st)
    /\ forall d, Dict.contains d (clients st) = true -> mem d (down st') = true.
Proof.
  intros ND.
  assert (ND0 : keys_distinct (set_running false st)) by exact ND.
  destruct (broadcast_spec farewell "Server" None "error" (set_running false st) ND0)
    as (st1 & Hrun1 & Hd1 & Hr1 & Hc1 & Hcl1 & Hin1).
  destruct (close_all (Dict.keys (clients st1)) st1)
    as (st2 & Hrun2 & Hc2 & Hw2 & Hr2 & Hd2).
  exists (set_clients [] st2).
  split.
  { unfold shutdown, bind. rewrite Hrun1. cbv beta iota. now rewrite Hrun2. }
  split; [reflexivity|]. split.
  { cbn [running set_clients]. rewrite Hr2, Hr1. reflexivity. }
  split.
  - intros d. specialize (Hin1 d). unfold reached in Hin1.
    cbn [is_excluded negb] in Hin1. rewrite andb_true_r in Hin1.
    change (mem d (Dict.keys (clients (set_running false st))))
      with (Dict.contains d (clients st)) in Hin1.
    change (down (set_running false st)) with (down st) in Hin1.
    change (clock (set_running false st)) with (clock st) in Hin1.
    change (inbox d (set_running false st)) with (inbox d st) in Hin1.
    assert (Hsame : inbox d (set_clients [] st2) = inbox d st1)
      by (apply inbox_same_wire; exact Hw2).
    rewrite Hsame. exact Hin1.
  - intros d Hreg. cbn [down set_clients]. rewrite Hd2, Hd1.
    change (down (set_running false st)) with (down st).
    destruct (mem d (down st)) eqn:Hdown; [apply orb_true_r|].
    rewrite orb_false_r.
    change (mem d (Dict.keys (clients st1))) with (Dict.contains d (clients st1)).
    rewrite Hcl1.
    rewrite (DictFacts.contains_filter_key
               (fun k => negb (fails None (down (set_running false st))
                                 (Dict.keys (clients (set_running false st))) k))).
    change (clients (set_running false st)) with (clients st).
    change (down (set_running false st)) with (down st).
    rewrite Hreg. unfold fails. rewrite Hdown. now rewrite !andb_false_r.
Qed.

Lemma shutdown_notifies_and_empties_witness :
  keys_distinct (shared Scenario.room)
  /\ exists st',
      shutdown (shared Scenario.room) = (Return tt, st')
      /\ clients st' = [] /\ running st' = false.
Proof.
  assert (ND : keys_distinct (shared Scenario.room)).
  { vm_compute. repeat constructor; simpl; intuition discriminate. }
  split; [exact ND|].
  destruct (shutdown_notifies_and_empties (shared Scenario.room) ND)
    as (st' & Hrun & Hcl & Hr & _).
  exists st'. now repeat split.
Defined.



(** Once the flag is cleared and the registry is empty, as [shutdown]
    leaves them, a session thread that comes back to the top of its loop
    leaves it and runs [finally]: it finds nothing to remove, its departure
    notice reaches nobody, and it closes its socket. Nothing is written. *)
Theorem sessions_end_silently_after_shutdown
    (conn : socket) (addr : address) (username : string) (st : server) :
  clients st = [] ->
  running st = false ->
  PyStr.truthy username = true ->
  handle_client_run conn addr (LoopTop username) st = (Finally username, st)
  /\ handle_client_run conn addr (Finally username) st = (Departing username, st)
  /\ exists st',
       handle_client_run conn addr (Departing username) st = (Closed, st')
       /\ wire st' = wire st /\ clients st' = [] /\ mem conn (down st') = true.
Proof.
  intros Hc Hr Hname. split; [|split].
  - unfold handle_client_run. now rewrite Hr.
  - unfold handle_client_run. rewrite Hname.
    unfold exec, remove_client. now rewrite Hc.
  - exists (exec (close conn) st).
    destruct (close_marks_down conn st) as (Kd & Kc & Kw).
    split.
    + unfold handle_client_run, exec, bind, broadcast. now rewrite Hc.
    + split; [exact Kw|]. split; [congruence | exact Kd].
Qed.

Lemma sessions_end_silently_after_shutdown_witness :
  let st := exec shutdown (shared Scenario.room) in
  clients st = [] /\ running st = false
  /\ handle_client_run 2 Scenario.addr2 (LoopTop "bob") st = (Finally "bob", st).
Proof.
  assert (Hc : clients (exec shutdown (shared Scenario.room)) = [])
    by (vm_compute; reflexivity).
  assert (Hr : running (exec shutdown (shared Scenario.room)) = false)
    by (vm_compute; reflexivity).
  split; [exact Hc|]. split; [exact Hr|].
  exact (proj1 (sessions_end_silently_after_shutdown 2 Scenario.addr2 "bob"
                  (exec shutdown (shared Scenario.room)) Hc Hr eq_refl)).
Defined.

(** ** A connection that never names itself *)

(** A connection that is greeted and then closes, or whose first read
    fails, is never registered: the greeting is all that was ever written,
    to that connection alone, the registry is as it was, and the socket is
    closed. *)
Theorem connection_without_username_leaves_no_trace
    (conn : socket) (addr : address) (r : received) (st : server) :
  mem conn (down st) = false ->
  r = Text EmptyString \/ r = Undecodable \/ r = RecvError ->
  exists st1 st2,
    handle_client_run conn addr Accepted st = (Handshaking, st1)
    /\ handle_client_recv conn addr Handshaking r st1 = (Closed, st2)
    /\ clients st2 = clients st
    /\ wire st2
       = (wire st ++ [(conn, event (clock st (reads st)) "Server" greeting "system")])%list
    /\ mem conn (down st2) = true.
Proof.
  intros Hup Hr.
  set (st1 := set_wire
                (wire st ++ [(conn, event (clock st (reads st)) "Server" greeting "system")])%list
                (set_reads (S (reads st)) st)).
  assert (H1 : handle_client_run conn addr Accepted st = (Handshaking, st1)).
  { unfold handle_client_run. now rewrite send_event_eq, Hup. }
  destruct (close_marks_down conn st1) as (Kd & Kc & Kw).
  destruct (close_marks_down conn (exec (close conn) st1)) as (Kd2 & Kc2 & Kw2).
  destruct Hr as [-> | [-> | ->]].
  - exists st1, (exec (close conn) (exec (close conn) st1)).
    split; [exact H1|]. split; [reflexivity|].
    split; [now rewrite Kc2, Kc|]. split; [now rewrite Kw2, Kw | exact Kd2].
  - exists st1, (exec (close conn) st1).
    split; [exact H1|]. split; [reflexivity|].
    split; [exact Kc|]. split; [exact Kw | exact Kd].
  - exists st1, (exec (close conn) st1).
    split; [exact H1|]. split; [reflexivity|].
    split; [exact Kc|]. split; [exact Kw | exact Kd].
Qed.

Lemma connection_without_username_leaves_no_trace_witness :
  mem 4 (down (shared Scenario.room)) = false
  /\ exists st1 st2,
      handle_client_run 4 ("127.0.0.1", 4004) Accepted (shared Scenario.room)
      = (Handshaking, st1)
      /\ handle_client_recv 4 ("127.0.0.1", 4004) Handshaking (Text EmptyString) st1
         = (Closed, st2)
      /\ clients st2 = clients (shared Scenario.room).
Proof.
  assert (Hup : mem 4 (down (shared Scenario.room)) = false)
    by (vm_compute; reflexivity).
  split; [exact Hup|].
  destruct (connection_without_username_leaves_no_trace 4 ("127.0.0.1", 4004)
              (Text EmptyString) (shared Scenario.room) Hup (or_introl eq_refl))
    as (st1 & st2 & H1 & H2 & Hc & _).
  exists st1, st2. now repeat split.
Defined.

(** ** The name "system" *)

(** Only the name "server" is reserved, while the join and departure
    notices are sent under the sender name "system" with the kind of a
    chat message. So the name "system" passes the test of the handshake,
    and a plain message of a session registered under it puts on the wire
    exactly what the departure notice of [victim] would put there. *)
Theorem system_named_session_can_forge_notices
    (conn other : socket) (addr other_addr : address) (victim : string)
    (st st2 : server) :
  ~ In "system" (Dict.usernames (clients st)) ->
  keys_distinct st2 ->
  PyStr.strip (victim ++ " has left the chat.") = victim ++ " has left the chat." ->
  PyStr.startswith "/" victim = false ->
  handle_client_recv conn addr Handshaking (Text "system") st = (Checked "system", st)
  /\ wire (snd (handle_client_recv conn addr (Receiving "system")
                  (Text (victim ++ " has left the chat.")) st2))
     = wire (snd (handle_client_run other other_addr (Departing victim) st2)).
Proof.
  intros Hfree ND Hstrip Hslash. split.
  - unfold handle_client_recv. cbn [PyStr.is_empty].
    change (PyStr.strip "system") with "system".
    destruct (username_taken "system" st) eqn:Htaken; [|reflexivity].
    apply username_taken_iff in Htaken as [H|H]; [contradiction|].
    vm_compute in H. discriminate H.
  - unfold handle_client_recv, handle_client_run.
    assert (Hne : PyStr.is_empty (victim ++ " has left the chat.") = false)
      by now destruct victim.
    assert (Hplain : PyStr.startswith "/" (victim ++ " has left the chat.") = false).
    { destruct victim as [|a r]; [reflexivity|].
      unfold PyStr.startswith in *. cbn [append String.prefix] in *.
      destruct (Ascii.ascii_dec "/" a); [|reflexivity].
      destruct r; discriminate Hslash. }
    rewrite Hne, Hstrip, Hplain. cbn [snd].
    unfold exec at 2. unfold bind.
    rewrite (broadcast_returns _ _ _ _ st2 ND). cbv beta iota.
    destruct (close_marks_down other
                (exec (broadcast (victim ++ " has left the chat.") "system" None
                         "message") st2)) as (_ & _ & Kw).
    symmetry. exact Kw.
Qed.

Lemma system_named_session_can_forge_notices_witness :
  ~ In "system" (Dict.usernames (clients (shared Scenario.room)))
  /\ keys_distinct (shared Scenario.room)
  /\ handle_client_recv 4 ("127.0.0.1", 4004) Handshaking (Text "system")
       (shared Scenario.room)
     = (Checked "system", shared Scenario.room).
Proof.
  assert (Hfree : ~ In "system" (Dict.usernames (clients (shared Scenario.room)))).
  { vm_compute. intuition discriminate. }
  assert (ND : keys_distinct (shared Scenario.room)).
  { vm_compute. repeat constructor; simpl; intuition discriminate. }
  assert (Hstrip : PyStr.strip ("bob" ++ " has left the chat.")
                   = "bob" ++ " has left the chat.") by (vm_compute; reflexivity).
  split; [exact Hfree|]. split; [exact ND|].
  exact (proj1 (system_named_session_can_forge_notices 4 1 ("127.0.0.1", 4004)
                  Scenario.addr1 "bob" (shared Scenario.room) (shared Scenario.room)
                  Hfree ND Hstrip eq_refl)).
Defined.

(** * Text handling *)

Module StrFacts.
Import PyStr.

Lemma rstrip_idem (s : string) : rstrip (rstrip s) = rstrip s.
Proof.
  induction s as [|a r IH]; [reflexivity|].
  cbn [rstrip]. destruct (isspace a && is_empty (rstrip r)) eqn:E; [reflexivity|].
  cbn [rstrip]. now rewrite IH, E.
Qed.

(** A stripped text is empty or starts with a character that is not
    whitespace. *)
Lemma lstrip_strip (s : string) : lstrip (strip s) = strip s.
Proof.
  unfold strip. induction s as [|a r IH]; [reflexivity|].
  cbn [lstrip]. destruct (isspace a) eqn:E; [exact IH|].
  cbn [rstrip]. rewrite E. cbn [andb lstrip]. now rewrite E.
Qed.

Lemma strip_idem (s : string) : strip (strip s) = strip s.
Proof.
  unfold strip at 1. rewrite lstrip_strip. unfold strip. apply rstrip_idem.
Qed.

Lemma no_space_app (a b : string) :
  no_space (a ++ b) = no_space a && no_space b.
Proof.
  induction a as [|x a IH]; simpl; [reflexivity|].
  now rewrite IH, andb_assoc.
Qed.

(** The words of [split] are words. *)
Lemma split_from_words (s : string) :
  forall word, no_space word = true ->
               forallb is_word (split_from word s) = true.
Proof.
  induction s as [|a r IH]; intros word Hw; cbn [split_from].
  - destruct (is_empty word) eqn:E; [reflexivity|].
    cbn [forallb]. unfold is_word. now rewrite E, Hw.
  - destruct (isspace a) eqn:Ea.
    + destruct (is_empty word) eqn:E; [now apply IH|].
      cbn [forallb]. unfold is_word. rewrite E, Hw. cbn [negb andb].
      now apply IH.
    + apply IH. rewrite no_space_app, Hw. cbn [no_space]. now rewrite Ea.
Qed.

Lemma split_from_word_prefix (w : string) :
  forall acc s, no_space w = true ->
                split_from acc (w ++ s) = split_from (acc ++ w) s.
Proof.
  induction w as [|a r IH]; intros acc s Hw.
  - now rewrite WireFacts.append_nil_r.
  - cbn [no_space] in Hw. apply andb_prop in Hw as [Ha Hr].
    apply negb_true_iff in Ha.
    cbn [append split_from]. rewrite Ha, (IH _ _ Hr), JsonFacts.append_assoc. reflexivity.
Qed.

(** Joining words with single spaces and splitting again gives the words. *)
Lemma split_join (ws : list string) :
  forallb is_word ws = true -> split (join " " ws) = ws.
Proof.
  unfold split. induction ws as [|w r IH]; [reflexivity|].
  cbn [forallb]. intros H. apply andb_prop in H as [Hw Hr].
  unfold is_word in Hw. apply andb_prop in Hw as [Hne Hns].
  apply negb_true_iff in Hne.
  destruct r as [|w2 r].
  - cbn [join]. rewrite <- (WireFacts.append_nil_r w) at 1.
    rewrite split_from_word_prefix by exact Hns.
    cbn [append split_from]. now rewrite Hne.
  - change (join " " (w :: w2 :: r)) with (w ++ " " ++ join " " (w2 :: r)).
    rewrite split_from_word_prefix by exact Hns.
    cbn [append split_from]. change (isspace " ") with true. cbv iota.
    rewrite Hne. now rewrite (IH Hr).
Qed.

End StrFacts.

(** The server ignores the whitespace around what it receives: as long as
    something is left after stripping, a first message or a later message
    is handled exactly as its stripped form would be. *)
Theorem surrounding_whitespace_is_ignored
    (conn : socket) (addr : address) (username data : string) (st : server) :
  PyStr.is_empty (PyStr.strip data) = false ->
  handle_client_recv conn addr Handshaking (Text data) st
  = handle_client_recv conn addr Handshaking (Text (PyStr.strip data)) st
  /\ handle_client_recv conn addr (Receiving username) (Text data) st
     = handle_client_recv conn addr (Receiving username) (Text (PyStr.strip data)) st.
Proof.
  intros Hleft.
  assert (Hne : PyStr.is_empty data = false).
  { destruct data; [discriminate Hleft | reflexivity]. }
  unfold handle_client_recv.
  now rewrite Hne, Hleft, StrFacts.strip_idem.
Qed.

Lemma surrounding_whitespace_is_ignored_witness :
  PyStr.is_empty (PyStr.strip "  /users  ") = false
  /\ handle_client_recv 1 Scenario.addr1 (Receiving "alice") (Text "  /users  ")
       (shared Scenario.room)
     = handle_client_recv 1 Scenario.addr1 (Receiving "alice")
         (Text (PyStr.strip "  /users  ")) (shared Scenario.room).
Proof.
  assert (Hleft : PyStr.is_empty (PyStr.strip "  /users  ") = false)
    by (vm_compute; reflexivity).
  split; [exact Hleft|].
  exact (proj2 (surrounding_whitespace_is_ignored 1 Scenario.addr1 "alice"
                  "  /users  " (shared Scenario.room) Hleft)).
Defined.

(** The text of a whisper keeps the words of the command after the target
    name, not the spacing between them: what the target is written is
    these words joined by single spaces, and splitting it gives the words
    back. *)
Theorem whisper_text_keeps_words_not_spacing
    (conn target : socket) (username command part0 target_user word : string)
    (rest : list string) (st : server) :
  PyStr.split command = part0 :: target_user :: word :: rest ->
  PyStr.lower part0 = "/whisper" ->
  find_target target_user (clients st) = Some target ->
  target <> conn ->
  mem target (down st) = false ->
  exists text,
    inbox target (snd (handle_command conn username command st))
    = (inbox target st
       ++ [event (clock st (reads st)) ("[Whisper from " ++ username ++ "]")
             text "whisper"])%list
    /\ text = PyStr.join " " (word :: rest)
    /\ PyStr.split text = word :: rest.
Proof.
  intros Hsplit Hcmd Hfound Hother Hup.
  exists (PyStr.join " " (word :: rest)).
  split; [|split; [reflexivity|]].
  - rewrite (handle_command_whisper conn username command part0 target_user word
               rest st Hsplit Hcmd), Hfound.
    destruct (Nat.eqb_spec target conn) as [E|_]; [contradiction|].
    unfold bind. rewrite send_event_eq, Hup.
    rewrite send_event_eq. cbn [down set_wire set_reads].
    destruct (mem conn (down st)); cbn [snd].
    + erewrite inbox_snoc by reflexivity. now rewrite Nat.eqb_refl.
    + erewrite inbox_snoc by reflexivity.
      destruct (Nat.eqb_spec conn target) as [E|_]; [congruence|].
      erewrite inbox_snoc by reflexivity. now rewrite Nat.eqb_refl.
  - apply StrFacts.split_join.
    pose proof (StrFacts.split_from_words command EmptyString eq_refl) as Hwords.
    fold (PyStr.split command) in Hwords. rewrite Hsplit in Hwords.
    cbn [forallb] in Hwords.
    apply andb_prop in Hwords as [_ Hwords].
    apply andb_prop in Hwords as [_ Hwords]. exact Hwords.
Qed.

Lemma whisper_text_keeps_words_not_spacing_witness :
  PyStr.split "/whisper bob see you  at noon" = ["/whisper"; "bob"; "see"; "you"; "at"; "noon"]
  /\ exists text,
      inbox 2 (snd (handle_command 1 "alice" "/whisper bob see you  at noon"
                      (shared Scenario.room)))
      = (inbox 2 (shared Scenario.room)
         ++ [event (clock (shared Scenario.room) (reads (shared Scenario.room)))
               ("[Whisper from " ++ "alice" ++ "]") text "whisper"])%list
      /\ text = "see you at noon".
Proof.
  assert (Hparts : PyStr.split "/whisper bob see you  at noon"
                   = ["/whisper"; "bob"; "see"; "you"; "at"; "noon"])
    by (vm_compute; reflexivity).
  assert (Hfound : find_target "bob" (clients (shared Scenario.room)) = Some 2)
    by (vm_compute; reflexivity).
  assert (Hup : mem 2 (down (shared Scenario.room)) = false)
    by (vm_compute; reflexivity).
  assert (Hother : 2 <> 1) by discriminate.
  split; [exact Hparts|].
  destruct (whisper_text_keeps_words_not_spacing 1 2 "alice"
              "/whisper bob see you  at noon" "/whisper" "bob" "see"
              ["you"; "at"; "noon"] (shared Scenario.room)
              Hparts eq_refl Hfound Hother Hup)
    as (text & Hin & Htext & _).
  exists text. split; [exact Hin | exact Htext].
Defined.

(** ** The chat loop of the client *)

(** Whatever line the user types, what the chat loop of the client sends,
    if anything, is not empty, has no whitespace around it and is never
    the bare word [/help]; so the server, which strips what it receives,
    acts on exactly the text that was sent. *)
Theorem client_sends_stripped_text (line data : string) :
  Client.sent_text (Client.chat_loop_turn line) = Some data ->
  PyStr.is_empty data = false
  /\ PyStr.strip data = data
  /\ PyStr.lower data <> "/help"
  /\ forall conn addr username st,
       handle_client_recv conn addr (Receiving username) (Text data) st
       = if PyStr.startswith "/" data
         then match handle_command conn username data st with
              | (Return _, st') => (LoopTop username, st')
              | (Raise, st') => (Finally username, st')
              end
         else (LoopTop username, exec (broadcast data username None "message") st).
Proof.
  unfold Client.chat_loop_turn. cbv zeta.
  destruct (PyStr.is_empty (PyStr.strip line)) eqn:Hne; [discriminate|].
  destruct (String.eqb_spec (PyStr.lower (PyStr.strip line)) "/quit") as [Hq|Hq].
  - intros [= <-]. split; [reflexivity|]. split; [reflexivity|].
    split; [vm_compute; discriminate|]. intros. reflexivity.
  - destruct (String.eqb_spec (PyStr.lower (PyStr.strip line)) "/help") as [Hh|Hh];
      [discriminate|].
    intros [= <-]. split; [exact Hne|].
    split; [apply StrFacts.strip_idem|]. split; [exact Hh|].
    intros. unfold handle_client_recv.
    now rewrite Hne, StrFacts.strip_idem.
Qed.

Lemma client_sends_stripped_text_witness :
  Client.sent_text (Client.chat_loop_turn "  hello there ") = Some "hello there"
  /\ PyStr.strip "hello there" = "hello there".
Proof.
  assert (H : Client.sent_text (Client.chat_loop_turn "  hello there ")
              = Some "hello there") by (vm_compute; reflexivity).
  split; [exact H|].
  exact (proj1 (proj2 (client_sends_stripped_text "  hello there " "hello there" H))).
Defined.

(** ** Who can be whispered to *)

Lemma send_event_elsewhere (c d : socket) (sender message msg_type : string)
    (st : server) :
  d <> c -> inbox d (snd (send_event c sender message msg_type st)) = inbox d st.
Proof.
  intros Hd. rewrite send_event_eq.
  destruct (mem c (down st)); cbn [snd]; [reflexivity|].
  erewrite inbox_snoc by reflexivity.
  destruct (Nat.eqb_spec c d); [congruence | reflexivity].
Qed.

(** The server accepts usernames that are empty or contain whitespace, but
    the target of a whisper is one word of the command. So a session
    registered under such a name is never written to by a command of
    another session, whatever the command: it cannot be whispered to. *)
Theorem names_with_whitespace_get_no_whisper
    (conn d : socket) (username command : string) (st : server) :
  d <> conn ->
  (forall info, In (d, info) (clients st) -> is_word (Dict.name_of info) = false) ->
  inbox d (snd (handle_command conn username command st)) = inbox d st.
Proof.
  intros Hd Hname. unfold handle_command.
  pose proof (StrFacts.split_from_words command EmptyString eq_refl) as Hwords.
  fold (PyStr.split command) in Hwords.
  destruct (PyStr.split command) as [|part0 parts]; [reflexivity|].
  cbv zeta.
  destruct (String.eqb (PyStr.lower part0) "/help");
    [now apply send_event_elsewhere|].
  destruct (String.eqb (PyStr.lower part0) "/users").
  { unfold bind, get_online_users. now apply send_event_elsewhere. }
  destruct (String.eqb (PyStr.lower part0) "/whisper"
            && Nat.leb 3 (List.length (part0 :: parts))) eqn:Hw.
  { apply andb_prop in Hw as [_ Hlen].
    destruct parts as [|target_user parts]; [discriminate Hlen|].
    cbn [nth]. cbn [forallb] in Hwords.
    apply andb_prop in Hwords as [_ Hwords].
    apply andb_prop in Hwords as [Hword _].
    unfold bind at 1. unfold lookup_target. cbv beta iota.
    destruct (find_target target_user (clients st)) as [target|] eqn:Hfound;
      [|now apply send_event_elsewhere].
    destruct (Nat.eqb target conn); cbn [negb];
      [now apply send_event_elsewhere|].
    assert (Htarget : d <> target).
    { intros ->. apply find_target_some in Hfound as (info & Hin & Hu).
      specialize (Hname info Hin). unfold Dict.name_of in Hname.
      rewrite Hu in Hname. congruence. }
    unfold bind.
    pose proof (send_event_elsewhere target d ("[Whisper from " ++ username ++ "]")
                  (PyStr.join " " (skipn 2 (part0 :: target_user :: parts)))
                  "whisper" st Htarget) as H1.
    destruct (send_event target ("[Whisper from " ++ username ++ "]")
                (PyStr.join " " (skipn 2 (part0 :: target_user :: parts)))
                "whisper" st) as [[[]|] st1]; cbn [snd] in *; [|exact H1].
    rewrite <- H1. now apply send_event_elsewhere. }
  destruct (String.eqb (PyStr.lower part0) "/time").
  { unfold bind, current_time.
    change (inbox d st) with (inbox d (set_reads (S (reads st)) st)).
    now apply send_event_elsewhere. }
  destruct (String.eqb (PyStr.lower part0) "/quit");
    now apply send_event_elsewhere.
Qed.

Lemma names_with_whitespace_get_no_whisper_witness :
  let st := exec (add_client 4 "dave smith" ("127.0.0.1", 4004))
              (shared Scenario.room) in
  is_word "dave smith" = false
  /\ inbox 4 (snd (handle_command 1 "alice" "/whisper dave smith hi" st))
     = inbox 4 st.
Proof.
  assert (Hname : forall info,
             In (4, info)
               (clients (exec (add_client 4 "dave smith" ("127.0.0.1", 4004))
                           (shared Scenario.room))) ->
             is_word (Dict.name_of info) = false).
  { intros info Hin. vm_compute in Hin.
    destruct Hin as [H|[H|[H|[H|[]]]]]; inversion H. vm_compute. reflexivity. }
  assert (Hother : 4 <> 1) by discriminate.
  split; [vm_compute; reflexivity|].
  exact (names_with_whitespace_get_no_whisper 1 4 "alice" "/whisper dave smith hi"
           (exec (add_client 4 "dave smith" ("127.0.0.1", 4004))
              (shared Scenario.room)) Hother Hname).
Defined.

(** ** [/users] *)

(** The reply to [/users] is one system-kind event, written to the sender
    only, whose text is the Python list of the registered usernames, one
    per registry entry, in the order in which they joined; the registry is
    unchanged. *)
Theorem users_command_lists_the_registry
    (conn : socket) (username command part0 : string) (rest : list string)
    (st : server) :
  PyStr.split command = part0 :: rest ->
  PyStr.lower part0 = "/users" ->
  mem conn (down st) = false ->
  exists st',
    handle_command conn username command st = (Return tt, st')
    /\ clients st' = clients st
    /\ wire st'
       = (wire st
          ++ [(conn, event (clock st (reads st)) "Server"
                       ("Online users: "
                        ++ PyStr.str_of_list (map Dict.name_of (map snd (clients st))))
                       "system")])%list
    /\ List.length (map Dict.name_of (map snd (clients st)))
       = List.length (clients st).
Proof.
  intros Hsplit Hcmd Hup. unfold handle_command. rewrite Hsplit, Hcmd.
  cbn [String.eqb Ascii.eqb Bool.eqb andb].
  unfold bind, get_online_users. rewrite send_event_eq, Hup.
  eexists. split; [reflexivity|]. split; [reflexivity|].
  split; [reflexivity | now rewrite !length_map].
Qed.

Lemma users_command_lists_the_registry_witness :
  PyStr.split "/USERS" = ["/USERS"]
  /\ exists st',
      handle_command 2 "bob" "/USERS" (shared Scenario.room) = (Return tt, st')
      /\ clients st' = clients (shared Scenario.room)
      /\ inbox 2 st'
         = (inbox 2 (shared Scenario.room)
            ++ [event (Scenario.tick 9) "Server"
                  "Online users: ['alice', 'bob', 'carol']" "system"])%list.
Proof.
  assert (Hsplit : PyStr.split "/USERS" = ["/USERS"]) by (vm_compute; reflexivity).
  assert (Hcmd : PyStr.lower "/USERS" = "/users") by (vm_compute; reflexivity).
  assert (Hup : mem 2 (down (shared Scenario.room)) = false)
    by (vm_compute; reflexivity).
  split; [exact Hsplit|].
  destruct (users_command_lists_the_registry 2 "bob" "/USERS" "/USERS" []
              (shared Scenario.room) Hsplit Hcmd Hup)
    as (st' & Hrun & Hcl & Hw & _).
  exists st'. split; [exact Hrun|]. split; [exact Hcl|].
  erewrite inbox_snoc by exact Hw. vm_compute. reflexivity.
Defined.

(** ** Usernames stay unique when handshakes do not overlap *)

(** When the test of the username and the step after it run with nothing
    in between, on a connection that is new to the registry, unique
    usernames stay unique, whether the candidate is accepted or not. *)
Theorem sequential_handshake_keeps_usernames_unique
    (conn : socket) (addr : address) (data : string) (st : server) :
  unique_usernames st ->
  Dict.contains conn (clients st) = false ->
  PyStr.is_empty data = false ->
  exists p st1 p' st2,
    handle_client_recv conn addr Handshaking (Text data) st = (p, st1)
    /\ handle_client_run conn addr p st1 = (p', st2)
    /\ unique_usernames st2
    /\ (p = Checked (PyStr.strip data) ->
        find_target (PyStr.strip data) (clients st2) = Some conn).
Proof.
  intros Huniq Hfresh Hne.
  unfold handle_client_recv. rewrite Hne.
  destruct (username_taken (PyStr.strip data) st) eqn:Htaken.
  - set (st1 := exec (send_event conn "Server"
                        "Username already taken. Disconnecting..." "error" ;;;
                      close conn) st).
    exists (Finally (PyStr.strip data)), st1,
      (fst (handle_client_run conn addr (Finally (PyStr.strip data)) st1)),
      (snd (handle_client_run conn addr (Finally (PyStr.strip data)) st1)).
    split; [reflexivity|]. split; [apply surjective_pairing|].
    assert (Hcl : clients st1 = clients st).
    { unfold st1, exec, bind. rewrite send_event_eq.
      destruct (mem conn (down st)); cbn [snd fst]; [reflexivity|].
      unfold close. cbn [snd down set_wire set_reads].
      now destruct (mem conn (down st)). }
    split; [|discriminate].
    unfold handle_client_run.
    destruct (PyStr.truthy (PyStr.strip data)); cbn [snd].
    + unfold exec at 1. unfold remove_client. rewrite Hcl, Hfresh. cbn [snd].
      unfold unique_usernames. now rewrite Hcl.
    + destruct (close_marks_down conn st1) as (_ & Kc & _).
      unfold unique_usernames. now rewrite Kc, Hcl.
  - exists (Checked (PyStr.strip data)), st.
    eexists. eexists. split; [reflexivity|]. split; [reflexivity|].
    split; [now apply handshake_alone_keeps_usernames_unique|].
    intros _. cbn [snd exec add_client clients set_clients].
    apply DictFacts.contains_false in Hfresh.
    unfold exec, add_client. cbn [snd clients set_clients].
    rewrite (set_fresh _ _ _ Hfresh), find_target_snoc.
    assert (Hnone : find_target (PyStr.strip data) (clients st) = None).
    { apply find_target_none. intros Hin.
      assert (username_taken (PyStr.strip data) st = true)
        by (apply username_taken_iff; now left).
      congruence. }
    rewrite Hnone.
    cbn. now rewrite String.eqb_refl.
Qed.

Lemma sequential_handshake_keeps_usernames_unique_witness :
  unique_usernames (shared Scenario.room)
  /\ exists p st1 p' st2,
      handle_client_recv 4 ("127.0.0.1", 4004) Handshaking (Text " dave ")
        (shared Scenario.room) = (p, st1)
      /\ handle_client_run 4 ("127.0.0.1", 4004) p st1 = (p', st2)
      /\ unique_usernames st2.
Proof.
  assert (Huniq : unique_usernames (shared Scenario.room)).
  { unfold unique_usernames. vm_compute.
    repeat constructor; simpl; intuition discriminate. }
  assert (Hfresh : Dict.contains 4 (clients (shared Scenario.room)) = false)
    by (vm_compute; reflexivity).
  split; [exact Huniq|].
  destruct (sequential_handshake_keeps_usernames_unique 4 ("127.0.0.1", 4004)
              " dave " (shared Scenario.room) Huniq Hfresh eq_refl)
    as (p & st1 & p' & st2 & H1 & H2 & H3 & _).
  exists p, st1, p', st2. now repeat split.
Defined.

(** * Events cut short *)

Module PrefixFacts.
Import PyStr Json JsonLoads JsonFacts.

Lemma skip_ws_length (s : string) : String.length (skip_ws s) <= String.length s.
Proof.
  induction s as [|a r IH]; [apply Nat.le_refl|].
  cbn [skip_ws]. destruct (is_ws a); cbn [String.length]; lia.
Qed.

Lemma skip_ws_ext (s t : string) :
  match skip_ws s with
  | EmptyString => skip_ws (s ++ t) = skip_ws t
  | String c r => skip_ws (s ++ t) = String c (r ++ t)
  end.
Proof.
  induction s as [|a r IH]; [reflexivity|].
  cbn [skip_ws append]. destruct (is_ws a); [exact IH | reflexivity].
Qed.

Lemma skip_ws_some_ext (s t : string) (c : ascii) (r : string) :
  skip_ws s = String c r -> skip_ws (s ++ t) = String c (r ++ t).
Proof. intros H. pose proof (skip_ws_ext s t) as E. now rewrite H in E. Qed.

Lemma skip_ws_none_ext (s t : string) :
  skip_ws s = EmptyString -> skip_ws (s ++ t) = skip_ws t.
Proof. intros H. pose proof (skip_ws_ext s t) as E. now rewrite H in E. Qed.

Lemma prepend_extends (a : ascii) (s s' t : string) :
  String.length s' < String.length s ->
  scan_extends s' t ->
  match prepend a (scan_string s') with
  | Scan x r =>
      prepend a (scan_string (s' ++ t)) = Scan x (r ++ t)
      /\ String.length r < String.length s
  | ScanUnsupported => prepend a (scan_string (s' ++ t)) = ScanUnsupported
  | ScanError => True
  end.
Proof.
  unfold scan_extends. intros Hlen H.
  destruct (scan_string s') as [x r| |]; cbn [prepend].
  - destruct H as [-> Hl]. split; [reflexivity | lia].
  - exact I.
  - now rewrite H.
Qed.

Lemma scan_string_ext (n : nat) :
  forall s t, String.length s <= n -> scan_extends s t.
Proof.
  induction n as [|n IH]; intros s t Hn.
  - destruct s; [exact I | inversion Hn].
  - destruct s as [|a r0]; [exact I|].
    cbn [String.length] in Hn.
    unfold scan_extends. cbn [append]. cbn [scan_string].
    destruct (Ascii.eqb a dquote).
    { split; [reflexivity | cbn [String.length]; lia]. }
    destruct (Ascii.eqb a backslash).
    { destruct r0 as [|e r1]; [exact I|]. cbn [append].
      cbn [String.length] in Hn.
      destruct (Nat.eqb (ord e) 117).
      - destruct r1 as [|h1 [|h2 [|h3 [|h4 r2]]]]; try exact I.
        cbn [append]. cbn [String.length] in Hn.
        destruct (hex_value h1) as [v1|]; [|exact I].
        destruct (hex_value h2) as [v2|]; [|exact I].
        destruct (hex_value h3) as [v3|]; [|exact I].
        destruct (hex_value h4) as [v4|]; [|exact I].
        destruct (Nat.eqb v1 0 && Nat.eqb v2 0); [|reflexivity].
        apply prepend_extends; [cbn [String.length]; lia|].
        apply IH. lia.
      - destruct (unescape e) as [c|]; [|exact I].
        apply prepend_extends; [cbn [String.length]; lia|].
        apply IH. lia. }
    destruct (Nat.ltb (ord a) 32); [exact I|].
    apply prepend_extends; [cbn [String.length]; lia|].
    apply IH. lia.
Qed.

Lemma scan_found_ext (s t x r : string) :
  scan_string s = Scan x r ->
  scan_string (s ++ t) = Scan x (r ++ t) /\ String.length r < String.length s.
Proof.
  intros H. pose proof (scan_string_ext (String.length s) s t (Nat.le_refl _)) as E.
  unfold scan_extends in E. now rewrite H in E.
Qed.

Lemma scan_unsupported_ext (s t : string) :
  scan_string s = ScanUnsupported -> scan_string (s ++ t) = ScanUnsupported.
Proof.
  intros H. pose proof (scan_string_ext (String.length s) s t (Nat.le_refl _)) as E.
  unfold scan_extends in E. now rewrite H in E.
Qed.

Lemma finish_ext (d : list (string * string)) (r t : string) :
  match finish d r with
  | Decoded d' => finish d (r ++ t) = finish d' t
  | _ => True
  end.
Proof.
  unfold finish. destruct (skip_ws r) eqn:E; [|exact I].
  now rewrite (skip_ws_none_ext r t E).
Qed.

Lemma members_ext (f : nat) :
  forall acc s t, String.length s < f -> members_extend f acc s t.
Proof.
  induction f as [|f IH]; intros acc s t Hlen; [inversion Hlen|].
  unfold members_extend.
  destruct s as [|q r]; [exact I|].
  cbn [String.length] in Hlen.
  cbn [members].
  destruct (negb (Ascii.eqb q dquote)) eqn:Hq; [exact I|].
  destruct (scan_string r) as [key r1| |] eqn:Hkey; [|exact I|].
  2:{ intros [|f'] Hf'; [inversion Hf'|].
      cbn [append members]. rewrite Hq.
      now rewrite (scan_unsupported_ext r t Hkey). }
  destruct (scan_found_ext r t key r1 Hkey) as [Ekey Lkey].
  destruct (skip_ws r1) as [|c r2] eqn:Hc; [exact I|].
  pose proof (skip_ws_length r1) as L1. rewrite Hc in L1.
  cbn [String.length] in L1.
  destruct (negb (Nat.eqb (ord c) 58)) eqn:Hcolon; [exact I|].
  destruct (skip_ws r2) as [|v r3] eqn:Hv; [exact I|].
  pose proof (skip_ws_length r2) as L2. rewrite Hv in L2.
  cbn [String.length] in L2.
  assert (Hhead : forall f',
             members (S f') acc (String q r ++ t)
             = match (if Ascii.eqb v dquote
                      then match scan_string (r3 ++ t) with
                           | ScanError => DecodeError
                           | ScanUnsupported => Unsupported
                           | Scan value r4 =>
                               match skip_ws r4 with
                               | EmptyString => DecodeError
                               | String d r5 =>
                                   if Nat.eqb (ord d) 44
                                   then members f' (dict_set key value acc) (skip_ws r5)
                                   else if Nat.eqb (ord d) 125
                                   then finish (dict_set key value acc) r5
                                   else DecodeError
                               end
                           end
                      else if starts_other_value v then Unsupported
                      else DecodeError) with
               | x => x
               end).
  { intros f'. cbn [append members]. rewrite Hq, Ekey.
    rewrite (skip_ws_some_ext r1 t c r2 Hc), Hcolon.
    now rewrite (skip_ws_some_ext r2 t v r3 Hv). }
  destruct (Ascii.eqb v dquote).
  2:{ destruct (starts_other_value v); [|exact I].
      intros [|f'] Hf'; [inversion Hf'|]. now rewrite Hhead. }
  destruct (scan_string r3) as [value r4| |] eqn:Hval; [|exact I|].
  2:{ intros [|f'] Hf'; [inversion Hf'|].
      now rewrite Hhead, (scan_unsupported_ext r3 t Hval). }
  destruct (scan_found_ext r3 t value r4 Hval) as [Eval Lval].
  destruct (skip_ws r4) as [|d r5] eqn:Hd; [exact I|].
  pose proof (skip_ws_length r4) as L4. rewrite Hd in L4.
  cbn [String.length] in L4.
  destruct (Nat.eqb (ord d) 44) eqn:Hcomma.
  - pose proof (skip_ws_length r5) as L5.
    assert (Hfuel : String.length (skip_ws r5) < f) by lia.
    pose proof (IH (dict_set key value acc) (skip_ws r5) t Hfuel) as Hrec.
    unfold members_extend in Hrec.
    assert (Hnext : forall f',
               members (S f') acc (String q r ++ t)
               = members f' (dict_set key value acc) (skip_ws (r5 ++ t))).
    { intros f'. rewrite Hhead, Eval.
      now rewrite (skip_ws_some_ext r4 t d r5 Hd), Hcomma. }
    destruct (skip_ws r5) as [|c5 r6] eqn:H5.
    + destruct f as [|f0]; [inversion Hfuel | exact I].
    + rewrite (skip_ws_some_ext r5 t c5 r6 H5) in Hnext.
      change (String c5 (r6 ++ t)) with (String c5 r6 ++ t) in Hnext.
      destruct (members f (dict_set key value acc) (String c5 r6)) as [d'| |];
        [|exact I|].
      * intros [|f'] Hf'; [inversion Hf'|]. rewrite Hnext. apply Hrec. lia.
      * intros [|f'] Hf'; [inversion Hf'|]. rewrite Hnext. apply Hrec. lia.
  - destruct (Nat.eqb (ord d) 125) eqn:Hbrace; [|exact I].
    pose proof (finish_ext (dict_set key value acc) r5 t) as Hfin.
    destruct (finish (dict_set key value acc) r5) as [d'| |] eqn:Hf5;
      [|exact I|].
    + intros [|f'] Hf'; [inversion Hf'|].
      rewrite Hhead, Eval.
      now rewrite (skip_ws_some_ext r4 t d r5 Hd), Hcomma, Hbrace.
    + unfold finish in Hf5. destruct (skip_ws r5); discriminate Hf5.
Qed.

(** What [loads] has decided stays decided by what follows. *)
Lemma loads_ext (s t : string) :
  match loads s with
  | Decoded d => loads (s ++ t) = finish d t
  | Unsupported => loads (s ++ t) = Unsupported
  | DecodeError => True
  end.
Proof.
  unfold loads.
  destruct (skip_ws s) as [|a r] eqn:Ha; [exact I|].
  rewrite (skip_ws_some_ext s t a r Ha).
  pose proof (skip_ws_length s) as La. rewrite Ha in La. cbn [String.length] in La.
  destruct (Nat.eqb (ord a) 123).
  - destruct (skip_ws r) as [|b r'] eqn:Hb; [exact I|].
    rewrite (skip_ws_some_ext r t b r' Hb).
    pose proof (skip_ws_length r) as Lb. rewrite Hb in Lb.
    cbn [String.length] in Lb.
    destruct (Nat.eqb (ord b) 125).
    + pose proof (finish_ext [] r' t) as Hfin.
      destruct (finish [] r') as [d'| |] eqn:Hf; try exact I.
      * exact Hfin.
      * unfold finish in Hf. destruct (skip_ws r'); discriminate Hf.
    + assert (Hfuel : String.length (String b r') < String.length s)
        by (cbn [String.length]; lia).
      pose proof (members_ext (String.length s) [] (String b r') t Hfuel) as Hm.
      unfold members_extend in Hm.
      change (String b (r' ++ t)) with (String b r' ++ t).
      destruct (members (String.length s) [] (String b r')) as [d'| |];
        try exact I; apply Hm; rewrite length_append; lia.
  - destruct (Ascii.eqb a dquote || starts_other_value a); [reflexivity | exact I].
Qed.

(** A text that decodes once more text is added, text that is not only
    whitespace, does not decode as it is. *)
Lemma loads_prefix (s t : string) (d : list (string * string)) :
  loads (s ++ t) = Decoded d -> skip_ws t <> EmptyString -> loads s = DecodeError.
Proof.
  intros Hfull Ht. pose proof (loads_ext s t) as E.
  destruct (loads s) as [d'| |]; [|reflexivity|].
  - exfalso. rewrite E in Hfull. unfold finish in Hfull.
    destruct (skip_ws t); [congruence | discriminate Hfull].
  - rewrite E in Hfull. discriminate Hfull.
Qed.

Lemma ends_with_brace (t : string) :
  t <> EmptyString -> (exists y, t = y ++ "}") -> skip_ws t <> EmptyString.
Proof.
  intros Hne [y ->]. clear Hne.
  induction y as [|a y IH]; [discriminate|].
  cbn [append skip_ws]. destruct (is_ws a); [exact IH | discriminate].
Qed.

Lemma suffix_ends_alike (p : string) :
  forall x t, p ++ t = x ++ "}" -> t <> EmptyString -> exists y, t = y ++ "}".
Proof.
  induction p as [|a p IH]; intros x t H Ht.
  - now exists x.
  - destruct x as [|b x]; cbn [append] in H.
    + injection H as _ H. destruct p; [contradiction | discriminate H].
    + injection H as _ H. now apply (IH x).
Qed.

End PrefixFacts.

(** A server event that arrives cut short, as [recv(1024)] cuts one that
    is longer, is never displayed as something else: whatever the event
    and wherever it is cut, its first part is no JSON document, and the
    client prints "Received invalid data" and goes on. *)
Theorem client_rejects_event_cut_short
    (local_time : string) (now : datetime)
    (sender message msg_type first rest : string) :
  event now sender message msg_type = first ++ rest ->
  first <> EmptyString ->
  rest <> EmptyString ->
  Client.receive_messages_turn local_time (Text first)
  = Client.Printed ("[" ++ local_time ++ "] Received invalid data") true.
Proof.
  intros Hcut Hfirst Hrest.
  unfold Client.receive_messages_turn.
  destruct first as [|a first']; [contradiction|]. cbn [PyStr.is_empty].
  assert (Hfull : JsonLoads.loads (String a first' ++ rest)
                  = JsonLoads.Decoded
                      (message_data (Clock.hms now) sender message msg_type)).
  { rewrite <- Hcut. unfold event. apply WireFacts.loads_dumps.
    cbn [message_data map fst]. repeat constructor; simpl; intuition discriminate. }
  assert (Hws : JsonLoads.skip_ws rest <> EmptyString).
  { apply PrefixFacts.ends_with_brace; [exact Hrest|].
    apply (PrefixFacts.suffix_ends_alike (String a first')
             ("{" ++ PyStr.join ", "
                       (map Json.member
                          (message_data (Clock.hms now) sender message msg_type)))
             rest); [|exact Hrest].
    rewrite <- Hcut. unfold event, Json.dumps.
    now rewrite !JsonFacts.append_assoc. }
  now rewrite (PrefixFacts.loads_prefix _ _ _ Hfull Hws).
Qed.

Lemma client_rejects_event_cut_short_witness :
  let sent := event (Scenario.tick 0) "alice" "see you at noon" "message" in
  let first := String.substring 0 40 sent in
  let rest := String.substring 40 (String.length sent - 40) sent in
  sent = first ++ rest
  /\ Client.receive_messages_turn "09:05:01" (Text first)
     = Client.Printed ("[" ++ "09:05:01" ++ "] Received invalid data") true.
Proof.
  set (sent := event (Scenario.tick 0) "alice" "see you at noon" "message").
  set (first := String.substring 0 40 sent).
  set (rest := String.substring 40 (String.length sent - 40) sent).
  assert (Hcut : sent = first ++ rest) by (vm_compute; reflexivity).
  assert (Hfirst : first <> EmptyString) by (vm_compute; discriminate).
  assert (Hrest : rest <> EmptyString) by (vm_compute; discriminate).
  split; [exact Hcut|].
  exact (client_rejects_event_cut_short "09:05:01" (Scenario.tick 0) "alice"
           "see you at noon" "message" first rest Hcut Hfirst Hrest).
Defined.

(** ** The username the client sends *)

(** The client never sends an empty or blank username: what its username
    loop sends is not empty and has no whitespace around it, so the server
    tests and registers exactly the name that was sent, and the session it
    registers is one that [finally] removes and announces. *)
Theorem client_username_is_never_blank (line name : string) :
  Client.username_prompt_turn line = Some name ->
  PyStr.truthy name = true
  /\ PyStr.strip name = name
  /\ forall conn addr st,
       handle_client_recv conn addr Handshaking (Text name) st
       = if username_taken name st
         then (Finally name,
               exec (send_event conn "Server"
                       "Username already taken. Disconnecting..." "error" ;;;
                     close conn) st)
         else (Checked name, st).
Proof.
  unfold Client.username_prompt_turn. cbv zeta.
  destruct (PyStr.truthy (PyStr.strip line)) eqn:Hname; [|discriminate].
  intros [= <-]. split; [exact Hname|].
  split; [apply StrFacts.strip_idem|].
  intros conn addr st. unfold handle_client_recv.
  unfold PyStr.truthy in Hname. apply negb_true_iff in Hname.
  now rewrite Hname, StrFacts.strip_idem.
Qed.

Lemma client_username_is_never_blank_witness :
  Client.username_prompt_turn "  dave " = Some "dave"
  /\ PyStr.truthy "dave" = true /\ PyStr.strip "dave" = "dave".
Proof.
  assert (H : Client.username_prompt_turn "  dave " = Some "dave")
    by (vm_compute; reflexivity).
  split; [exact H|].
  destruct (client_username_is_never_blank "  dave " "dave" H) as (H1 & H2 & _).
  split; [exact H1 | exact H2].
Defined.
